(** * AIDAN Brain API: authorization gate, registration, revenue ledger,
      webhook ingestion and prediction-market listing

    A shallow embedding of [main.py], [polymarket.py] and
    [stripe/stripe_api.py].  Request handlers are functions in a small
    state-and-exception monad over a [World] that holds the SQLite tables
    (as lists of rows, in rowid order), the process-local registration
    counters and a log of the statements sent to the database. *)

From Stdlib Require Import ZArith List String Ascii Bool Lia.
From Stdlib Require Import Numbers.Cyclic.Int63.Uint63 Floats.PrimFloat.
From stdpp Require Import gmap strings.
Import ListNotations.
Open Scope string_scope.
Open Scope Z_scope.
Open Scope list_scope.

(* ===================================================================== *)
(** ** Strings *)
(* ===================================================================== *)

(** Python truthiness of a [str]: only the empty string is falsy. *)
Definition str_truthy (s : string) : bool := negb (String.eqb s EmptyString).

(** Python truthiness of an [Optional[str]]: [None] and the empty string
    are falsy. *)
Definition truthy (o : option string) : bool :=
  match o with
  | Some s => str_truthy s
  | None => false
  end.

Definition opt_str_eqb (a b : option string) : bool :=
  match a, b with
  | Some x, Some y => String.eqb x y
  | None, None => true
  | _, _ => false
  end.

Definition char_quot : ascii := ascii_of_nat 34.
Definition char_apos : ascii := ascii_of_nat 39.
Definition char_newline : ascii := ascii_of_nat 10.

(** [html.escape(s)] with the default [quote=True]: the five markup
    characters become entities, every other character is kept. *)
Definition escape_char (c : ascii) : string :=
  if Ascii.eqb c "&"%char then "&amp;"
  else if Ascii.eqb c "<"%char then "&lt;"
  else if Ascii.eqb c ">"%char then "&gt;"
  else if Ascii.eqb c char_quot then "&quot;"
  else if Ascii.eqb c char_apos then "&#x27;"
  else String c EmptyString.

Fixpoint html_escape (s : string) : string :=
  match s with
  | EmptyString => EmptyString
  | String c rest => String.append (escape_char c) (html_escape rest)
  end.

(* ===================================================================== *)
(** ** Regular expressions, for [EMAIL_RE] *)
(* ===================================================================== *)

Inductive regex : Type :=
| Void
| Eps
| Class (p : ascii -> bool)
| Seq (r s : regex)
| Alt (r s : regex)
| Star (r : regex).

Fixpoint nullable (r : regex) : bool :=
  match r with
  | Void => false
  | Eps => true
  | Class _ => false
  | Seq r s => nullable r && nullable s
  | Alt r s => nullable r || nullable s
  | Star _ => true
  end.

Definition is_void (r : regex) : bool :=
  match r with Void => true | _ => false end.

(** Constructors that drop dead branches, so derivatives stay small. *)
Definition seq' (r s : regex) : regex :=
  if is_void r || is_void s then Void else Seq r s.

Definition alt' (r s : regex) : regex :=
  if is_void r then s else if is_void s then r else Alt r s.

Fixpoint deriv (c : ascii) (r : regex) : regex :=
  match r with
  | Void => Void
  | Eps => Void
  | Class p => if p c then Eps else Void
  | Seq r s =>
      alt' (seq' (deriv c r) s) (if nullable r then deriv c s else Void)
  | Alt r s => alt' (deriv c r) (deriv c s)
  | Star r => seq' (deriv c r) (Star r)
  end.

(** The whole string is in the language of [r]. *)
Fixpoint fullmatch (r : regex) (s : string) : bool :=
  match s with
  | EmptyString => nullable r
  | String c rest => fullmatch (deriv c r) rest
  end.

Definition plus (r : regex) : regex := Seq r (Star r).

Definition in_range (lo hi c : ascii) : bool :=
  (nat_of_ascii lo <=? nat_of_ascii c)%nat && (nat_of_ascii c <=? nat_of_ascii hi)%nat.

Definition is_alpha (c : ascii) : bool :=
  in_range "a" "z" c || in_range "A" "Z" c.

Definition is_alnum (c : ascii) : bool :=
  is_alpha c || in_range "0" "9" c.

(** [[a-zA-Z0-9._%+-]] *)
Definition local_char (c : ascii) : bool :=
  is_alnum c || Ascii.eqb c "." || Ascii.eqb c "_" || Ascii.eqb c "%"
  || Ascii.eqb c "+" || Ascii.eqb c "-".

(** [[a-zA-Z0-9.-]] *)
Definition domain_char (c : ascii) : bool :=
  is_alnum c || Ascii.eqb c "." || Ascii.eqb c "-".

(** [EMAIL_RE = re.compile(r'^[a-zA-Z0-9._%+-]+@[a-zA-Z0-9.-]+\.[a-zA-Z]{2,}$')].
    The pattern is used through [EMAIL_RE.match], which anchors at the
    start; the closing [$] of Python's [re] accepts the end of the string
    and also the position just before one final newline. *)
Definition EMAIL_RE : regex :=
  Seq (plus (Class local_char))
    (Seq (Class (Ascii.eqb "@"))
       (Seq (plus (Class domain_char))
          (Seq (Class (Ascii.eqb "."))
             (Seq (Class is_alpha)
                (Seq (Class is_alpha)
                   (Seq (Star (Class is_alpha))
                      (Alt Eps (Class (Ascii.eqb char_newline))))))))).

Definition EMAIL_RE_match (email : string) : bool := fullmatch EMAIL_RE email.

Definition VALID_CATEGORIES : list string :=
  ["api"; "product"; "service"; "consulting"].

Definition str_in (s : string) (l : list string) : bool :=
  existsb (String.eqb s) l.

(* ===================================================================== *)
(** ** Time *)
(* ===================================================================== *)

(** Instants are whole seconds since the epoch, in UTC.  A calendar date
    (the string [YYYY-MM-DD]) is represented by its day number: two
    instants fall on the same date exactly when their day numbers agree. *)
Definition day_of (t : Z) : Z := t / 86400.

(** SQLite's [date(created_at)]: [created_at] is filled in by
    [CURRENT_TIMESTAMP], which is UTC, and [date()] does not shift it. *)
Definition sql_date (created_at : Z) : Z := day_of created_at.

(* ===================================================================== *)
(** ** Tables *)
(* ===================================================================== *)

(** Each table carries the columns the handlers read and write
    ([api_usage_log] as [init_db.py] creates it, [api_keys] with the two
    [email_sent] columns that the inserts of [main.py] name).  Instants
    are kept as seconds since the epoch. *)

Module ApiKeys.
Record row : Type := {
    api_key : string;
    tier : string;
    customer_email : option string;
    daily_limit : Z;
    monthly_limit : Z;
    subscription_status : string;
    email_sent : Z;
    email_sent_at : option Z
  }.
End ApiKeys.

Module UsageLog.
Record row : Type := {
    api_key : string;
    endpoint : string;
    response_time_ms : Z;
    status_code : Z;
    created_at : Z
  }.
End UsageLog.

Module RevenueStreams.
Record row : Type := {
    id : Z;
    name : string;
    category : string;
    monthly_revenue : float;
    potential_monthly : float;
    growth_rate : float;
    notes : option string;
    created_at : Z;
    updated_at : Z
  }.
End RevenueStreams.

Module DashboardSubscriptions.
Record row : Type := {
    customer_email : option string;
    price_id : option string;
    stripe_session_id : option string;
    status : string
  }.
End DashboardSubscriptions.

Module PolymarketMarkets.
Record row : Type := {
    id : string;
    question : option string;
    category : option string;
    volume24h : option float;
    active : option Z;
    outcomes : option string;
    raw_data : option string;
    updated_at : Z
  }.
End PolymarketMarkets.

Module Payments.
Record row : Type := {
    payment_intent_id : string;
    amount_pence : Z;
    currency : string;
    status : string;
    updated_at : Z
  }.
End Payments.

(** What reaches the database, in order: [get_db()] / [sqlite3.connect],
    each statement with its verb and table, [commit] and [close]. *)
Inductive sql_verb : Type := SELECT | INSERT | UPDATE.

Inductive db_event : Type :=
| EvConnect
| EvExecute (verb : sql_verb) (table : string)
| EvCommit
| EvClose.

(** The state a request can observe or change. *)
Record World : Type := {
  api_keys : list ApiKeys.row;
  api_usage_log : list UsageLog.row;
  revenue_streams : list RevenueStreams.row;
  dashboard_subscriptions : list DashboardSubscriptions.row;
  polymarket_markets : list PolymarketMarkets.row;
  payments : list Payments.row;
  (** [_registration_attempts = {}  # {ip: [timestamps]}] *)
  _registration_attempts : gmap string (list Z);
  (** how many tokens [secrets.token_urlsafe] has handed out *)
  tokens_minted : nat;
  db_trace : list db_event
}.

Definition with_api_keys (f : list ApiKeys.row -> list ApiKeys.row) (w : World) : World :=
  {| api_keys := f (api_keys w); api_usage_log := api_usage_log w;
     revenue_streams := revenue_streams w;
     dashboard_subscriptions := dashboard_subscriptions w;
     polymarket_markets := polymarket_markets w; payments := payments w;
     _registration_attempts := _registration_attempts w;
     tokens_minted := tokens_minted w; db_trace := db_trace w |}.

Definition with_api_usage_log (f : list UsageLog.row -> list UsageLog.row) (w : World) : World :=
  {| api_keys := api_keys w; api_usage_log := f (api_usage_log w);
     revenue_streams := revenue_streams w;
     dashboard_subscriptions := dashboard_subscriptions w;
     polymarket_markets := polymarket_markets w; payments := payments w;
     _registration_attempts := _registration_attempts w;
     tokens_minted := tokens_minted w; db_trace := db_trace w |}.

Definition with_revenue_streams
    (f : list RevenueStreams.row -> list RevenueStreams.row) (w : World) : World :=
  {| api_keys := api_keys w; api_usage_log := api_usage_log w;
     revenue_streams := f (revenue_streams w);
     dashboard_subscriptions := dashboard_subscriptions w;
     polymarket_markets := polymarket_markets w; payments := payments w;
     _registration_attempts := _registration_attempts w;
     tokens_minted := tokens_minted w; db_trace := db_trace w |}.

Definition with_dashboard_subscriptions
    (f : list DashboardSubscriptions.row -> list DashboardSubscriptions.row)
    (w : World) : World :=
  {| api_keys := api_keys w; api_usage_log := api_usage_log w;
     revenue_streams := revenue_streams w;
     dashboard_subscriptions := f (dashboard_subscriptions w);
     polymarket_markets := polymarket_markets w; payments := payments w;
     _registration_attempts := _registration_attempts w;
     tokens_minted := tokens_minted w; db_trace := db_trace w |}.

Definition with_payments (f : list Payments.row -> list Payments.row) (w : World) : World :=
  {| api_keys := api_keys w; api_usage_log := api_usage_log w;
     revenue_streams := revenue_streams w;
     dashboard_subscriptions := dashboard_subscriptions w;
     polymarket_markets := polymarket_markets w; payments := f (payments w);
     _registration_attempts := _registration_attempts w;
     tokens_minted := tokens_minted w; db_trace := db_trace w |}.

Definition with_registration_attempts
    (f : gmap string (list Z) -> gmap string (list Z)) (w : World) : World :=
  {| api_keys := api_keys w; api_usage_log := api_usage_log w;
     revenue_streams := revenue_streams w;
     dashboard_subscriptions := dashboard_subscriptions w;
     polymarket_markets := polymarket_markets w; payments := payments w;
     _registration_attempts := f (_registration_attempts w);
     tokens_minted := tokens_minted w; db_trace := db_trace w |}.

Definition with_tokens_minted (f : nat -> nat) (w : World) : World :=
  {| api_keys := api_keys w; api_usage_log := api_usage_log w;
     revenue_streams := revenue_streams w;
     dashboard_subscriptions := dashboard_subscriptions w;
     polymarket_markets := polymarket_markets w; payments := payments w;
     _registration_attempts := _registration_attempts w;
     tokens_minted := f (tokens_minted w); db_trace := db_trace w |}.

Definition with_db_trace (f : list db_event -> list db_event) (w : World) : World :=
  {| api_keys := api_keys w; api_usage_log := api_usage_log w;
     revenue_streams := revenue_streams w;
     dashboard_subscriptions := dashboard_subscriptions w;
     polymarket_markets := polymarket_markets w; payments := payments w;
     _registration_attempts := _registration_attempts w;
     tokens_minted := tokens_minted w; db_trace := f (db_trace w) |}.

(* ===================================================================== *)
(** ** The environment of one request *)
(* ===================================================================== *)

(** An event as the payment SDK hands it over after verification: its
    [type] and the fields of [event["data"]["object"]] the handlers read. *)
Record StripeObject : Type := {
  object_id : option string;
  customer_email : option string;
  (** [line_items.data[i].price.id], one entry per line item *)
  line_items : list (option string);
  (** [metadata.price_id] *)
  metadata_price_id : option string
}.

Record StripeEvent : Type := {
  event_type : string;
  data_object : StripeObject
}.

(** The three ways [stripe.Webhook.construct_event] ends. *)
Inductive construct_result : Type :=
| Constructed (event : StripeEvent)
| ValueError
| SignatureVerificationError.

Record Env : Type := {
  (** [time.time()], seconds since the epoch *)
  now : Z;
  (** offset of the server's local time zone, in seconds east of UTC *)
  utcoffset : Z;
  (** what the usage middleware measures for this request *)
  duration_ms : Z;
  (** the n-th value drawn from [secrets.token_urlsafe(32)] *)
  entropy : nat -> string;
  (** [stripe.Webhook.construct_event(payload, sig_header, secret)] *)
  construct_event : string -> string -> string -> construct_result;
  (** [os.environ] *)
  STRIPE_SECRET_KEY : option string;
  STRIPE_WEBHOOK_SECRET : option string;
  STRIPE_DASHBOARD_PRICE : option string;
  STRIPE_BASIC_PRICE : option string;
  STRIPE_PRO_PRICE : option string;
  STRIPE_REVENUE_PRICE : option string
}.

(** [time.strftime("%Y-%m-%d")]: with no time tuple given, Python formats
    [time.localtime()], the server's local time. *)
Definition strftime_today (env : Env) : Z := day_of (now env + utcoffset env).

(** [os.environ.get(name, default)] *)
Definition environ_get (v : option string) (dflt : string) : string :=
  match v with Some s => s | None => dflt end.

(* ===================================================================== *)
(** ** Exceptions and the handler monad *)
(* ===================================================================== *)

Inductive exn : Type :=
| HTTPException (status_code : Z) (detail : string)
| IntegrityError.

Inductive result (A : Type) : Type :=
| Ok (a : A)
| Raise (e : exn).
Arguments Ok {A} a.
Arguments Raise {A} e.

Definition M (A : Type) : Type := World -> result A * World.

Definition ret {A : Type} (a : A) : M A := fun w => (Ok a, w).

Definition raise {A : Type} (e : exn) : M A := fun w => (Raise e, w).

Definition bind {A B : Type} (m : M A) (k : A -> M B) : M B :=
  fun w =>
    match m w with
    | (Ok a, w1) => k a w1
    | (Raise e, w1) => (Raise e, w1)
    end.

Notation "x <- m ;; k" := (bind m (fun x => k))
  (at level 100, m at next level, right associativity).
Notation "m ;; k" := (bind m (fun _ => k))
  (at level 100, right associativity).

(** [try: body finally: fin] *)
Definition try_finally {A : Type} (body : M A) (fin : M unit) : M A :=
  fun w =>
    let (r, w1) := body w in
    match fin w1 with
    | (Ok _, w2) => (r, w2)
    | (Raise e, w2) => (Raise e, w2)
    end.

(** [try: body except ...: handler]; [handler e = None] when no clause
    matches [e], which then propagates. *)
Definition try_except {A : Type} (body : M A) (handler : exn -> option (M A)) : M A :=
  fun w =>
    match body w with
    | (Ok a, w1) => (Ok a, w1)
    | (Raise e, w1) =>
        match handler e with
        | Some h => h w1
        | None => (Raise e, w1)
        end
    end.

(** The status line the HTTP layer sends: an [HTTPException] carries its
    own status, any other exception escaping a handler is a 500. *)
Definition http_status {A : Type} (r : result A) : Z :=
  match r with
  | Ok _ => 200
  | Raise (HTTPException s _) => s
  | Raise IntegrityError => 500
  end.

(** The error taxonomy of the service. *)
Inductive ErrorKind : Type :=
| InvalidInput | Unauthenticated | Forbidden | RateLimited | NotFound
| Conflict | Unavailable | Internal.

Definition error_kind (status : Z) : option ErrorKind :=
  if Z.eqb status 400 then Some InvalidInput
  else if Z.eqb status 401 then Some Unauthenticated
  else if Z.eqb status 403 then Some Forbidden
  else if Z.eqb status 404 then Some NotFound
  else if Z.eqb status 409 then Some Conflict
  else if Z.eqb status 429 then Some RateLimited
  else if Z.eqb status 503 then Some Unavailable
  else if Z.eqb status 500 then Some Internal
  else None.

(* ===================================================================== *)
(** ** Database primitives *)
(* ===================================================================== *)

Definition log_event (e : db_event) : M unit :=
  fun w => (Ok tt, with_db_trace (fun t => t ++ [e]) w).

(** [get_db()] (the two PRAGMA statements it issues change no table). *)
Definition get_db : M unit := log_event EvConnect.

Definition conn_close : M unit := log_event EvClose.

Definition conn_commit : M unit := log_event EvCommit.

(** A [SELECT] over one table: the rows the [WHERE] clause keeps. *)
Definition select {R : Type} (table : string) (rows : World -> list R)
    (where_ : R -> bool) : M (list R) :=
  log_event (EvExecute SELECT table) ;;
  (fun w => (Ok (List.filter where_ (rows w)), w)).

(** [cursor.fetchone()] *)
Definition fetchone {R : Type} (rows : list R) : option R := hd_error rows.

(** [INSERT INTO api_keys ...]: [api_key] is declared [UNIQUE], so a token
    already present in any row is refused with [IntegrityError]. *)
Definition insert_api_key (r : ApiKeys.row) : M unit :=
  log_event (EvExecute INSERT "api_keys") ;;
  (fun w =>
     if existsb (fun r0 => String.eqb (ApiKeys.api_key r0) (ApiKeys.api_key r)) (api_keys w)
     then (Raise IntegrityError, w)
     else (Ok tt, with_api_keys (fun t => t ++ [r]) w)).

(** [secrets.token_urlsafe(32)] *)
Definition token_urlsafe (env : Env) : M string :=
  fun w => (Ok (entropy env (tokens_minted w)), with_tokens_minted S w).

(* ===================================================================== *)
(** ** main.py: the authorization gate *)
(* ===================================================================== *)

(** The dict [get_key_info] returns. *)
Record KeyInfo : Type := {
  info_tier : string;
  info_name : option string;
  info_daily_limit : Z
}.

Definition key_is_active (api_key : string) (r : ApiKeys.row) : bool :=
  String.eqb (ApiKeys.api_key r) api_key
  && String.eqb (ApiKeys.subscription_status r) "active".

Definition get_key_info (api_key : string) : M (option KeyInfo) :=
  get_db ;;
  try_finally
    (rows <- select "api_keys" api_keys (key_is_active api_key) ;;
     match fetchone rows with
     | Some row =>
         ret (Some {| info_tier := ApiKeys.tier row;
                      info_name := ApiKeys.customer_email row;
                      info_daily_limit := ApiKeys.daily_limit row |})
     | None => ret None
     end)
    conn_close.

(** [WHERE api_key = ? AND date(created_at) = ?] *)
Definition used_on (api_key : string) (today : Z) (r : UsageLog.row) : bool :=
  String.eqb (UsageLog.api_key r) api_key
  && Z.eqb (sql_date (UsageLog.created_at r)) today.

Definition check_rate_limit (env : Env) (api_key : string) (limit : Z) : M bool :=
  let today := strftime_today env in
  get_db ;;
  try_finally
    (rows <- select "api_usage_log" api_usage_log (used_on api_key today) ;;
     let count := Z.of_nat (length rows) in
     ret (count <? limit))
    conn_close.

Definition get_auth (env : Env) (x_api_key : option string) : M KeyInfo :=
  if negb (truthy x_api_key) then
    raise (HTTPException 401 "Missing X-API-Key header")
  else
    let key := default EmptyString x_api_key in
    info <- get_key_info key ;;
    match info with
    | None => raise (HTTPException 403 "Invalid API key")
    | Some info =>
        let limit := info_daily_limit info in
        ok <- check_rate_limit env key limit ;;
        if negb ok then raise (HTTPException 429 "Rate limit exceeded")
        else ret info
    end.

(** The [log_api_usage] middleware around a handler: once the response
    exists, a request that carried a key appends one usage row stamped
    [CURRENT_TIMESTAMP].  An [HTTPException] has already been turned into
    a response at this point; any other exception passes through the
    middleware and nothing is logged. *)
Definition log_api_usage {A : Type} (env : Env) (x_api_key : option string)
    (path : string) (call_next : M A) : M A :=
  fun w =>
    let (r, w1) := call_next w in
    match r with
    | Raise IntegrityError => (r, w1)
    | _ =>
        if truthy x_api_key then
          let row := {| UsageLog.api_key := default EmptyString x_api_key;
                        UsageLog.endpoint := path;
                        UsageLog.response_time_ms := duration_ms env;
                        UsageLog.status_code := http_status r;
                        UsageLog.created_at := now env |} in
          let (_, w2) :=
            (get_db ;;
             try_finally
               (log_event (EvExecute INSERT "api_usage_log") ;;
                (fun w' => (Ok tt, with_api_usage_log (fun t => t ++ [row]) w')) ;;
                conn_commit)
               conn_close) w1 in
          (r, w2)
        else (r, w1)
    end.

(* ===================================================================== *)
(** ** main.py: self-registration *)
(* ===================================================================== *)

Definition MAX_REGISTRATIONS_PER_IP : nat := 3.
Definition REGISTRATION_WINDOW_SECONDS : Z := 3600.

(** The attempts of [ip] that are still inside the window at [now]. *)
Definition recent_attempts (env : Env) (ip : string) (w : World) : list Z :=
  List.filter (fun t => now env - t <? REGISTRATION_WINDOW_SECONDS)
    (default [] (_registration_attempts w !! ip)).

Definition check_registration_rate (env : Env) (ip : string) : M bool :=
  fun w =>
    let cleaned := recent_attempts env ip w in
    if (MAX_REGISTRATIONS_PER_IP <=? length cleaned)%nat then
      (Ok false, with_registration_attempts (fun d => <[ip := cleaned]> d) w)
    else
      (Ok true,
       with_registration_attempts (fun d => <[ip := cleaned ++ [now env]]> d) w).

Record RegisterResponse : Type := {
  reg_api_key : string;
  reg_tier : string;
  reg_daily_limit : Z;
  reg_message : string
}.

(** [WHERE customer_email = ? AND subscription_status = 'active'] *)
Definition active_for_email (email : string) (r : ApiKeys.row) : bool :=
  opt_str_eqb (ApiKeys.customer_email r) (Some email)
  && String.eqb (ApiKeys.subscription_status r) "active".

Definition new_key_row (api_key tier : string) (email : option string)
    (daily_limit monthly_limit : Z) : ApiKeys.row :=
  {| ApiKeys.api_key := api_key; ApiKeys.tier := tier;
     ApiKeys.customer_email := email;
     ApiKeys.daily_limit := daily_limit;
     ApiKeys.monthly_limit := monthly_limit;
     ApiKeys.subscription_status := "active";
     ApiKeys.email_sent := 0; ApiKeys.email_sent_at := None |}.

(** [request.client.host if request.client else "unknown"] *)
Definition client_host (client : option string) : string :=
  match client with
  | Some host => host
  | None => "unknown"
  end.

(** [register(req, request)]: [email] is [req.email], [client] is
    [request.client.host] when the request has a client.  The request
    model has already bounded the length of [req.email] (5 to 255); the
    handler itself does not look at it. *)
Definition register (env : Env) (email : string) (client : option string)
    : M RegisterResponse :=
  if negb (EMAIL_RE_match email) then
    raise (HTTPException 400 "Invalid email format")
  else
    let client_ip := client_host client in
    ok <- check_registration_rate env client_ip ;;
    if negb ok then
      raise (HTTPException 429 "Too many registrations. Try again later.")
    else
      let tier := "free" in
      let daily_limit := 100 in
      let monthly_limit := 3000 in
      token <- token_urlsafe env ;;
      let api_key := String.append "sk_" token in
      get_db ;;
      try_finally
        (try_except
           (existing <- select "api_keys" api_keys (active_for_email email) ;;
            match fetchone existing with
            | Some _ =>
                raise (HTTPException 409
                  "An API key already exists for this email. Contact support if you need a new key.")
            | None =>
                insert_api_key
                  (new_key_row api_key tier (Some email) daily_limit monthly_limit) ;;
                conn_commit
            end)
           (fun e =>
              match e with
              | HTTPException _ _ => Some (raise e)
              | IntegrityError =>
                  Some (raise (HTTPException 500 "Registration failed. Please try again."))
              end))
        conn_close ;;
      ret {| reg_api_key := api_key; reg_tier := tier;
             reg_daily_limit := daily_limit;
             reg_message := "Keep this key secure." |}.

(* ===================================================================== *)
(** ** main.py: the payment webhook *)
(* ===================================================================== *)

Definition DASHBOARD_PRICE (env : Env) : string :=
  environ_get (STRIPE_DASHBOARD_PRICE env) "price_1T1MFxLnWY7IoSqmd8R3pGJV".

(** The dict literal [price_to_tier]; a key written twice keeps the later
    entry. *)
Definition price_to_tier (env : Env) : gmap string string :=
  <[environ_get (STRIPE_REVENUE_PRICE env) "price_1T0LN1LnWY7IoSqmOIELPsqF" := "revenue_api"]>
    (<[environ_get (STRIPE_PRO_PRICE env) "price_1SzPtMLnWY7IoSqm83uF3GM0" := "pro"]>
       (<[environ_get (STRIPE_BASIC_PRICE env) "price_1SzPt7LnWY7IoSqm5YXJEHwy" := "basic"]>
          ∅)).

Definition tier_limits : gmap string Z :=
  <["revenue_api" := 5000]> (<["pro" := 10000]> (<["basic" := 1000]> ∅)).

(** Line-item price first, event metadata as the fallback. *)
Definition session_price_id (session : StripeObject) : option string :=
  let price_id :=
    match line_items session with
    | first :: _ => first
    | [] => None
    end in
  if negb (truthy price_id) then metadata_price_id session else price_id.

(** [price_to_tier.get(price_id, "basic")] *)
Definition tier_of_price (env : Env) (price_id : option string) : string :=
  match price_id with
  | Some p => default "basic" (price_to_tier env !! p)
  | None => "basic"
  end.

Definition insert_dashboard_subscription (r : DashboardSubscriptions.row) : M unit :=
  log_event (EvExecute INSERT "dashboard_subscriptions") ;;
  (fun w => (Ok tt, with_dashboard_subscriptions (fun t => t ++ [r]) w)).

(** The body run for a verified [checkout.session.completed] event. *)
Definition checkout_session_completed (env : Env) (session : StripeObject) : M string :=
  let customer_email := customer_email session in
  let price_id := session_price_id session in
  if opt_str_eqb price_id (Some (DASHBOARD_PRICE env)) then
    get_db ;;
    try_finally
      (insert_dashboard_subscription
         {| DashboardSubscriptions.customer_email := customer_email;
            DashboardSubscriptions.price_id := price_id;
            DashboardSubscriptions.stripe_session_id := object_id session;
            DashboardSubscriptions.status := "active" |} ;;
       conn_commit)
      conn_close ;;
    ret "dashboard_subscription_created"
  else
    let tier := tier_of_price env price_id in
    let daily_limit := default 1000 (tier_limits !! tier) in
    token <- token_urlsafe env ;;
    let api_key := String.append "sk_" token in
    get_db ;;
    try_finally
      (try_except
         (insert_api_key
            (new_key_row api_key tier customer_email daily_limit (daily_limit * 30)) ;;
          conn_commit)
         (fun e =>
            match e with
            | IntegrityError =>
                Some (token <- token_urlsafe env ;;
                      let api_key := String.append "sk_" token in
                      insert_api_key
                        (new_key_row api_key tier customer_email daily_limit
                           (daily_limit * 30)) ;;
                      conn_commit)
            | HTTPException _ _ => None
            end))
      conn_close ;;
    ret "received".

(** [stripe_webhook(request)]: [payload] is the raw body, [sig_header] the
    [stripe-signature] header.  The result is the [status] of the JSON
    answer. *)
Definition stripe_webhook (env : Env) (payload : string) (sig_header : option string)
    : M string :=
  let stripe_secret := STRIPE_SECRET_KEY env in
  let webhook_secret := STRIPE_WEBHOOK_SECRET env in
  if negb (truthy stripe_secret) || negb (truthy webhook_secret) then
    raise (HTTPException 503 "Payment processing not configured")
  else if negb (truthy sig_header) then
    raise (HTTPException 400 "Missing signature")
  else
    match construct_event env payload (default EmptyString sig_header)
            (default EmptyString webhook_secret) with
    | ValueError => raise (HTTPException 400 "Invalid payload")
    | SignatureVerificationError => raise (HTTPException 400 "Invalid signature")
    | Constructed event =>
        if String.eqb (event_type event) "checkout.session.completed" then
          checkout_session_completed env (data_object event)
        else ret "received"
    end.

(* ===================================================================== *)
(** ** stripe/stripe_api.py: the webhook of the payment microservice *)
(* ===================================================================== *)

Module stripe_api.

Definition STRIPE_WEBHOOK_SECRET (env : Env) : string :=
    environ_get (STRIPE_WEBHOOK_SECRET env) "whsec_placeholder".

  (** [UPDATE payments SET status = ?, updated_at = datetime('now')
      WHERE payment_intent_id = ?], inside [try/except Exception]: a
      missing [id] is caught and only logged. *)
Definition mark_payment (env : Env) (status : string) (data : StripeObject) : M unit :=
    log_event EvConnect ;;
    try_finally
      (match object_id data with
       | Some pid =>
           log_event (EvExecute UPDATE "payments") ;;
           (fun w =>
              (Ok tt,
               with_payments
                 (map (fun r =>
                         if String.eqb (Payments.payment_intent_id r) pid then
                           {| Payments.payment_intent_id := Payments.payment_intent_id r;
                              Payments.amount_pence := Payments.amount_pence r;
                              Payments.currency := Payments.currency r;
                              Payments.status := status;
                              Payments.updated_at := now env |}
                         else r)) w)) ;;
           conn_commit
       | None => ret tt
       end)
      conn_close.

  (** The result is the [received] flag of the JSON answer. *)
Definition stripe_webhook (env : Env) (payload : string)
      (stripe_signature : option string) : M bool :=
    if negb (truthy stripe_signature) then
      raise (HTTPException 400 "Missing Stripe-Signature header")
    else
      match construct_event env payload (default EmptyString stripe_signature)
              (STRIPE_WEBHOOK_SECRET env) with
      | ValueError => raise (HTTPException 400 "Invalid payload")
      | SignatureVerificationError => raise (HTTPException 400 "Invalid signature")
      | Constructed event =>
          let data := data_object event in
          (if String.eqb (event_type event) "payment_intent.succeeded" then
             mark_payment env "succeeded" data
           else if String.eqb (event_type event) "payment_intent.payment_failed" then
             mark_payment env "failed" data
           else ret tt) ;;
          ret true
      end.

End stripe_api.

(* ===================================================================== *)
(** ** main.py: the revenue ledger *)
(* ===================================================================== *)

(** A number as SQLite hands it to Python: [INTEGER] or [REAL]. *)
Inductive pynum : Type :=
| PInt (z : Z)
| PFloat (f : float).

(** [float(z)] for the integers that occur here (counts, and the literal
    [0] of [COALESCE]); exact for [|z| < 2^53]. *)
Definition float_of_Z (z : Z) : float :=
  if z <? 0 then PrimFloat.opp (PrimFloat.of_uint63 (Uint63.of_Z (- z)))
  else PrimFloat.of_uint63 (Uint63.of_Z z).

(** Python's [a - b] on numbers. *)
Definition py_sub (a b : pynum) : pynum :=
  match a, b with
  | PInt x, PInt y => PInt (x - y)
  | PFloat x, PFloat y => PFloat (PrimFloat.sub x y)
  | PInt x, PFloat y => PFloat (PrimFloat.sub (float_of_Z x) y)
  | PFloat x, PInt y => PFloat (PrimFloat.sub x (float_of_Z y))
  end.

(** [SUM(col)] over a [REAL] column: [NULL] when there is no row, else the
    running binary64 sum of the rows in table order. *)
Definition sql_sum (xs : list float) : option float :=
  match xs with
  | [] => None
  | _ => Some (fold_left PrimFloat.add xs PrimFloat.zero)
  end.

(** [AVG(col)]: [NULL] when there is no row, else the sum over the count. *)
Definition sql_avg (xs : list float) : option float :=
  match sql_sum xs with
  | None => None
  | Some total => Some (PrimFloat.div total (float_of_Z (Z.of_nat (length xs))))
  end.

(** [COALESCE(x, 0)] *)
Definition coalesce0 (x : option float) : pynum :=
  match x with
  | Some f => PFloat f
  | None => PInt 0
  end.

(** The request body of [POST /revenue/streams]. *)
Record RevenueStream : Type := {
  rs_name : string;
  rs_category : string;
  rs_monthly_revenue : float;
  rs_potential_monthly : float;
  rs_growth_rate : float;
  rs_notes : option string
}.

(** The request body of [PUT /revenue/streams/{stream_id}]: every field
    is optional. *)
Record RevenueStreamUpdate : Type := {
  up_monthly_revenue : option float;
  up_potential_monthly : option float;
  up_growth_rate : option float;
  up_notes : option string
}.

(** [AUTOINCREMENT]: one more than the largest id in use. *)
Definition next_id (rows : list RevenueStreams.row) : Z :=
  1 + fold_right (fun r acc => Z.max (RevenueStreams.id r) acc) 0 rows.

Record CreateResponse : Type := {
  stream_id : Z;
  create_message : string
}.

Definition create_revenue_stream (env : Env) (stream : RevenueStream)
    (x_api_key : option string) : M CreateResponse :=
  auth <- get_auth env x_api_key ;;
  if negb (str_in (rs_category stream) VALID_CATEGORIES) then
    (* the source's detail goes on to list the categories, in set order *)
    raise (HTTPException 400 "Invalid category")
  else
    let safe_name := html_escape (rs_name stream) in
    let safe_notes :=
      if truthy (rs_notes stream)
      then Some (html_escape (default EmptyString (rs_notes stream)))
      else None in
    get_db ;;
    new_id <-
      try_finally
        (log_event (EvExecute INSERT "revenue_streams") ;;
         lastrowid <-
           (fun w =>
              let i := next_id (revenue_streams w) in
              (Ok i,
               with_revenue_streams
                 (fun t =>
                    t ++ [{| RevenueStreams.id := i;
                             RevenueStreams.name := safe_name;
                             RevenueStreams.category := rs_category stream;
                             RevenueStreams.monthly_revenue := rs_monthly_revenue stream;
                             RevenueStreams.potential_monthly := rs_potential_monthly stream;
                             RevenueStreams.growth_rate := rs_growth_rate stream;
                             RevenueStreams.notes := safe_notes;
                             RevenueStreams.created_at := now env;
                             RevenueStreams.updated_at := now env |}]) w)) ;;
         conn_commit ;;
         ret lastrowid)
        conn_close ;;
    ret {| stream_id := new_id;
           create_message := "Revenue stream created successfully" |}.

(** One entry of the [updates] list that becomes the [SET] clause. *)
Inductive assignment : Type :=
| SetMonthlyRevenue (v : float)
| SetPotentialMonthly (v : float)
| SetGrowthRate (v : float)
| SetNotes (v : string)
| SetUpdatedAt.

Definition assign (env : Env) (a : assignment) (r : RevenueStreams.row)
    : RevenueStreams.row :=
  let mk m p g n u :=
    {| RevenueStreams.id := RevenueStreams.id r;
       RevenueStreams.name := RevenueStreams.name r;
       RevenueStreams.category := RevenueStreams.category r;
       RevenueStreams.monthly_revenue := m;
       RevenueStreams.potential_monthly := p;
       RevenueStreams.growth_rate := g;
       RevenueStreams.notes := n;
       RevenueStreams.created_at := RevenueStreams.created_at r;
       RevenueStreams.updated_at := u |} in
  let m := RevenueStreams.monthly_revenue r in
  let p := RevenueStreams.potential_monthly r in
  let g := RevenueStreams.growth_rate r in
  let n := RevenueStreams.notes r in
  let u := RevenueStreams.updated_at r in
  match a with
  | SetMonthlyRevenue v => mk v p g n u
  | SetPotentialMonthly v => mk m v g n u
  | SetGrowthRate v => mk m p v n u
  | SetNotes v => mk m p g (Some v) u
  | SetUpdatedAt => mk m p g n (now env)
  end.

(** [UPDATE revenue_streams SET <updates> WHERE id = ?] applied to one
    row: the assignments take effect on the matching row only. *)
Definition apply_update (env : Env) (updates : list assignment) (stream_id : Z)
    (r : RevenueStreams.row) : RevenueStreams.row :=
  if Z.eqb (RevenueStreams.id r) stream_id
  then fold_left (fun r a => assign env a r) updates r
  else r.

Definition opt_entry {A : Type} (f : A -> assignment) (v : option A) : list assignment :=
  match v with
  | Some x => [f x]
  | None => []
  end.

(** The [updates] list as the handler builds it, before the trailing
    [updated_at = CURRENT_TIMESTAMP]. *)
Definition supplied_updates (update : RevenueStreamUpdate) : list assignment :=
  opt_entry SetMonthlyRevenue (up_monthly_revenue update)
  ++ opt_entry SetPotentialMonthly (up_potential_monthly update)
  ++ opt_entry SetGrowthRate (up_growth_rate update)
  ++ opt_entry (fun n => SetNotes (html_escape n)) (up_notes update).

Definition is_nil {A : Type} (l : list A) : bool :=
  match l with [] => true | _ => false end.

Definition update_revenue_stream (env : Env) (stream_id : Z)
    (update : RevenueStreamUpdate) (x_api_key : option string) : M string :=
  auth <- get_auth env x_api_key ;;
  get_db ;;
  try_finally
    (let updates := supplied_updates update in
     if is_nil updates then
       raise (HTTPException 400 "No fields to update")
     else
       let updates := updates ++ [SetUpdatedAt] in
       log_event (EvExecute UPDATE "revenue_streams") ;;
       rowcount <-
         (fun w =>
            (Ok (length (List.filter
                           (fun r => Z.eqb (RevenueStreams.id r) stream_id)
                           (revenue_streams w))),
             with_revenue_streams (map (apply_update env updates stream_id)) w)) ;;
       if Nat.eqb rowcount 0 then
         raise (HTTPException 404 "Revenue stream not found")
       else conn_commit)
    conn_close ;;
  ret "Revenue stream updated successfully".

Record RevenueSummary : Type := {
  total_streams : Z;
  total_monthly_revenue : pynum;
  total_potential_revenue : pynum;
  avg_growth_rate : pynum;
  revenue_gap : pynum
}.

Definition get_revenue_summary (env : Env) (x_api_key : option string)
    : M RevenueSummary :=
  auth <- get_auth env x_api_key ;;
  get_db ;;
  try_finally
    (rows <- select "revenue_streams" revenue_streams (fun _ => true) ;;
     let summary0 := Z.of_nat (length rows) in
     let summary1 := coalesce0 (sql_sum (map RevenueStreams.monthly_revenue rows)) in
     let summary2 := coalesce0 (sql_sum (map RevenueStreams.potential_monthly rows)) in
     let summary3 := coalesce0 (sql_avg (map RevenueStreams.growth_rate rows)) in
     ret {| total_streams := summary0;
            total_monthly_revenue := summary1;
            total_potential_revenue := summary2;
            avg_growth_rate := summary3;
            revenue_gap := py_sub summary2 summary1 |})
    conn_close.

(* ===================================================================== *)
(** ** Prediction-market listing: main.py and polymarket.py *)
(* ===================================================================== *)

(** A JSON text column after the handler's post-processing: left as
    stored (NULL or empty), replaced by the parsed value, or replaced by
    the fallback ([[]] for [outcomes], [{}] for [raw_data]) when parsing
    fails. *)
Inductive json_cell (J : Type) : Type :=
| Stored (s : option string)
| Parsed (j : J)
| Fallback.
Arguments Stored {J} s.
Arguments Parsed {J} j.
Arguments Fallback {J}.

(** [dict(row)] with its two JSON columns post-processed. *)
Record Market (J : Type) : Type := {
  m_id : string;
  m_question : option string;
  m_category : option string;
  m_volume24h : option float;
  m_active : option Z;
  m_outcomes : json_cell J;
  m_raw_data : json_cell J;
  m_updated_at : Z
}.
Arguments m_id {J} _.
Arguments m_question {J} _.
Arguments m_category {J} _.
Arguments m_volume24h {J} _.
Arguments m_active {J} _.
Arguments m_outcomes {J} _.
Arguments m_raw_data {J} _.
Arguments m_updated_at {J} _.

(** [active = 1] *)
Definition active_is_1 (r : PolymarketMarkets.row) : bool :=
  match PolymarketMarkets.active r with
  | Some a => Z.eqb a 1
  | None => false
  end.

(** The [WHERE] clause the handlers assemble from [active_only] and
    [category]. *)
Definition market_where (active_only : bool) (category : option string)
    (r : PolymarketMarkets.row) : bool :=
  (if active_only then active_is_1 r else true)
  && (if truthy category
      then opt_str_eqb (PolymarketMarkets.category r) category
      else true).

(** [a < b] on [volume24h] in SQLite's ordering: NULL sorts below every
    number. *)
Definition volume_ltb (a b : option float) : bool :=
  match a, b with
  | None, Some _ => true
  | Some x, Some y => PrimFloat.ltb x y
  | _, None => false
  end.

Fixpoint insert_desc (r : PolymarketMarkets.row) (l : list PolymarketMarkets.row)
    : list PolymarketMarkets.row :=
  match l with
  | [] => [r]
  | x :: rest =>
      if volume_ltb (PolymarketMarkets.volume24h r) (PolymarketMarkets.volume24h x)
      then x :: insert_desc r rest
      else r :: x :: rest
  end.

(** [ORDER BY volume24h DESC], ties kept in table order. *)
Definition order_by_volume24h_desc (l : list PolymarketMarkets.row)
    : list PolymarketMarkets.row :=
  fold_right insert_desc [] l.

(** [LIMIT ?]: a negative bound means no bound in SQLite. *)
Definition sql_limit {R : Type} (n : Z) (l : list R) : list R :=
  if n <? 0 then l else firstn (Z.to_nat n) l.

Definition select_markets (limit : Z) (category : option string) (active_only : bool)
    : M (list PolymarketMarkets.row) :=
  log_event (EvExecute SELECT "polymarket_markets") ;;
  (fun w =>
     (Ok (sql_limit limit
            (order_by_volume24h_desc
               (List.filter (market_where active_only category)
                  (polymarket_markets w)))), w)).

Section Listing.

  (** The JSON values and [json.loads]; [None] stands for
      [JSONDecodeError]. *)
Context {J : Type} (json_loads : string -> option J).

Definition parse_cell (cell : option string) : json_cell J :=
    if truthy cell then
      match json_loads (default EmptyString cell) with
      | Some j => Parsed j
      | None => Fallback
      end
    else Stored cell.

Definition to_market (row : PolymarketMarkets.row) : Market J :=
    {| m_id := PolymarketMarkets.id row;
       m_question := PolymarketMarkets.question row;
       m_category := PolymarketMarkets.category row;
       m_volume24h := PolymarketMarkets.volume24h row;
       m_active := PolymarketMarkets.active row;
       m_outcomes := parse_cell (PolymarketMarkets.outcomes row);
       m_raw_data := parse_cell (PolymarketMarkets.raw_data row);
       m_updated_at := PolymarketMarkets.updated_at row |}.

Record MarketsResponse : Type := {
    markets : list (Market J);
    count : Z
  }.

  (** main.py, [GET /polymarket/markets] *)
Definition get_polymarket_markets (env : Env) (limit : Z) (category : option string)
      (active_only : bool) (x_api_key : option string) : M MarketsResponse :=
    auth <- get_auth env x_api_key ;;
    get_db ;;
    try_finally
      (rows <- select_markets (Z.min limit 100) category active_only ;;
       let markets := map to_market rows in
       ret {| markets := markets; count := Z.of_nat (length markets) |})
      conn_close.

End Listing.

Module polymarket.
Section Listing.

Context {J : Type} (json_loads : string -> option J).

Record MarketsResponse : Type := {
    markets : list (Market J);
    count : Z;
    timestamp : Z;
    data_updated : option Z
  }.

  (** polymarket.py, [GET /markets]: no key is asked for and the limit is
      passed on as given. *)
Definition get_markets (env : Env) (limit : Z) (category : option string)
      (active_only : bool) : M MarketsResponse :=
    log_event EvConnect ;;
    try_finally
      (rows <- select_markets limit category active_only ;;
       let markets := map (to_market json_loads) rows in
       ret {| markets := markets;
              count := Z.of_nat (length markets);
              timestamp := now env;
              data_updated := option_map m_updated_at (hd_error markets) |})
      conn_close.

End Listing.
End polymarket.

(* ===================================================================== *)
(** ** Further handlers and helpers of the three services *)
(* ===================================================================== *)

(** main.py, [mask_key]: what the log lines show of a key. *)
Definition mask_key (key : string) : string :=
  if str_truthy key && (8 <? String.length key)%nat then
    String.append (substring 0 6 key)
      (String.append "..." (substring (String.length key - 4) 4 key))
  else "***".

Fixpoint insert_newest (r : RevenueStreams.row) (l : list RevenueStreams.row)
    : list RevenueStreams.row :=
  match l with
  | [] => [r]
  | x :: rest =>
      if RevenueStreams.created_at r <? RevenueStreams.created_at x
      then x :: insert_newest r rest
      else r :: x :: rest
  end.

(** [ORDER BY created_at DESC], ties kept in table order. *)
Definition order_by_created_at_desc (l : list RevenueStreams.row)
    : list RevenueStreams.row :=
  fold_right insert_newest [] l.

(** main.py, [GET /revenue/streams] *)
Definition get_revenue_streams (env : Env) (x_api_key : option string)
    : M (list RevenueStreams.row) :=
  auth <- get_auth env x_api_key ;;
  get_db ;;
  try_finally
    (streams <- select "revenue_streams" revenue_streams (fun _ => true) ;;
     ret (order_by_created_at_desc streams))
    conn_close.

(** main.py, [GET /revenue/streams/{stream_id}] *)
Definition get_revenue_stream (env : Env) (stream_id : Z) (x_api_key : option string)
    : M RevenueStreams.row :=
  auth <- get_auth env x_api_key ;;
  get_db ;;
  try_finally
    (rows <- select "revenue_streams" revenue_streams
               (fun r => Z.eqb (RevenueStreams.id r) stream_id) ;;
     match fetchone rows with
     | None => raise (HTTPException 404 "Revenue stream not found")
     | Some stream => ret stream
     end)
    conn_close.

(** stripe/stripe_api.py, [GET /payment/{payment_intent_id}] *)
Definition get_payment_status (payment_intent_id : string) : M Payments.row :=
  log_event EvConnect ;;
  try_finally
    (rows <- select "payments" payments
               (fun r => String.eqb (Payments.payment_intent_id r) payment_intent_id) ;;
     match fetchone rows with
     | Some row => ret row
     | None => raise (HTTPException 404 "Payment not found")
     end)
    conn_close.

Section SingleMarket.

Context {J : Type} (json_loads : string -> option J).

(** The two JSON answers of [GET /market/{market_id}]: [{"market": ...}]
    and [{"error": ...}]; both are sent with status 200. *)
Inductive MarketAnswer : Type :=
| MarketFound (market : Market J)
| MarketError (error : string).

(** polymarket.py, [get_market] *)
Definition get_market (market_id : string) : M MarketAnswer :=
  log_event EvConnect ;;
  try_finally
    (rows <- select "polymarket_markets" polymarket_markets
               (fun r => String.eqb (PolymarketMarkets.id r) market_id) ;;
     match fetchone rows with
     | None => ret (MarketError "Market not found")
     | Some row => ret (MarketFound (to_market json_loads row))
     end)
    conn_close.

End SingleMarket.

(* ===================================================================== *)
(** ** Notions used to state the properties *)
(* ===================================================================== *)

(** The world after the database has seen the further events [evs]. *)
Definition traced (evs : list db_event) (w : World) : World :=
  with_db_trace (fun t => t ++ evs) w.

(** What the key lookup of the gate finds for a token. *)
Definition find_key_info (api_key : string) (w : World) : option KeyInfo :=
  match fetchone (List.filter (key_is_active api_key) (api_keys w)) with
  | Some row =>
      Some {| info_tier := ApiKeys.tier row;
              info_name := ApiKeys.customer_email row;
              info_daily_limit := ApiKeys.daily_limit row |}
  | None => None
  end.

(** Usage rows of a token whose stored (UTC) date is the day [day]. *)
Definition usage_on_day (api_key : string) (day : Z) (w : World) : Z :=
  Z.of_nat (length (List.filter (used_on api_key day) (api_usage_log w))).

(** The current date in UTC. *)
Definition utc_today (env : Env) : Z := day_of (now env).

(** No row of the key table makes the presented token usable: the token
    is unknown, or every row carrying it has a status other than active. *)
Definition no_active_row (x_api_key : option string) (w : World) : Prop :=
  forall r, In r (api_keys w) ->
    Some (ApiKeys.api_key r) = x_api_key ->
    ApiKeys.subscription_status r <> "active".

(** Every table and the in-memory state are the same in both worlds; only
    the log of database events may differ. *)
Definition same_state (w w' : World) : Prop :=
  api_keys w' = api_keys w /\
  api_usage_log w' = api_usage_log w /\
  revenue_streams w' = revenue_streams w /\
  dashboard_subscriptions w' = dashboard_subscriptions w /\
  polymarket_markets w' = polymarket_markets w /\
  payments w' = payments w /\
  _registration_attempts w' = _registration_attempts w /\
  tokens_minted w' = tokens_minted w.

(** The request cannot be verified: the signature header is missing, or
    the SDK refuses the signature. *)
Definition unverified (env : Env) (payload : string) (sig_header : option string)
    (secret : string) : Prop :=
  truthy sig_header = false \/
  construct_event env payload (default EmptyString sig_header) secret
    = SignatureVerificationError.

(** The token the n-th draw turns into. *)
Definition minted_key (env : Env) (n : nat) : string :=
  String.append "sk_" (entropy env n).

Definition key_taken (api_key : string) (w : World) : bool :=
  existsb (fun r => String.eqb (ApiKeys.api_key r) api_key) (api_keys w).

(** The row of a stream after a partial update: a supplied field takes
    the supplied value (notes escaped), an omitted one keeps the stored
    value; [updated_at] is stamped. *)
Definition patched (env : Env) (update : RevenueStreamUpdate)
    (r : RevenueStreams.row) : RevenueStreams.row :=
  {| RevenueStreams.id := RevenueStreams.id r;
     RevenueStreams.name := RevenueStreams.name r;
     RevenueStreams.category := RevenueStreams.category r;
     RevenueStreams.monthly_revenue :=
       default (RevenueStreams.monthly_revenue r) (up_monthly_revenue update);
     RevenueStreams.potential_monthly :=
       default (RevenueStreams.potential_monthly r) (up_potential_monthly update);
     RevenueStreams.growth_rate :=
       default (RevenueStreams.growth_rate r) (up_growth_rate update);
     RevenueStreams.notes :=
       match up_notes update with
       | Some n => Some (html_escape n)
       | None => RevenueStreams.notes r
       end;
     RevenueStreams.created_at := RevenueStreams.created_at r;
     RevenueStreams.updated_at := now env |}.

(** An update body that supplies [growth_rate] and nothing else. *)
Definition growth_rate_only (g : float) : RevenueStreamUpdate :=
  {| up_monthly_revenue := None; up_potential_monthly := None;
     up_growth_rate := Some g; up_notes := None |}.

(** The world once [ip] has been granted a registration slot at [now]. *)
Definition slot_taken (env : Env) (ip : string) (w : World) : World :=
  with_registration_attempts
    (fun d => <[ip := recent_attempts env ip w ++ [now env]]> d) w.

(** The world once [ip] has been refused a slot: only the expired
    timestamps were dropped. *)
Definition slot_refused (env : Env) (ip : string) (w : World) : World :=
  with_registration_attempts (fun d => <[ip := recent_attempts env ip w]> d) w.

(** Some active key is stored for [email]. *)
Definition has_active_key (email : string) (w : World) : Prop :=
  exists row, In row (api_keys w) /\ active_for_email email row = true.

Definition conflict_409 : exn :=
  HTTPException 409
    "An API key already exists for this email. Contact support if you need a new key.".

Definition too_many_429 : exn :=
  HTTPException 429 "Too many registrations. Try again later.".

Definition invalid_email_400 : exn := HTTPException 400 "Invalid email format".

Definition registration_failed_500 : exn :=
  HTTPException 500 "Registration failed. Please try again.".

(** The row [create_revenue_stream] stores for a request body. *)
Definition created_row (env : Env) (stream : RevenueStream) (w : World)
    : RevenueStreams.row :=
  {| RevenueStreams.id := next_id (revenue_streams w);
     RevenueStreams.name := html_escape (rs_name stream);
     RevenueStreams.category := rs_category stream;
     RevenueStreams.monthly_revenue := rs_monthly_revenue stream;
     RevenueStreams.potential_monthly := rs_potential_monthly stream;
     RevenueStreams.growth_rate := rs_growth_rate stream;
     RevenueStreams.notes :=
       if truthy (rs_notes stream)
       then Some (html_escape (default EmptyString (rs_notes stream)))
       else None;
     RevenueStreams.created_at := now env;
     RevenueStreams.updated_at := now env |}.

(** The six events of a gate that lets a request through. *)
Definition gate_events : list db_event :=
  [EvConnect; EvExecute SELECT "api_keys"; EvClose;
   EvConnect; EvExecute SELECT "api_usage_log"; EvClose].

(** One request that carries [key]: the gate, wrapped in the usage
    middleware. *)
Definition gated_request (env : Env) (key path : string) : M KeyInfo :=
  log_api_usage env (Some key) path (get_auth env (Some key)).

(** Requests served one after the other, each with its own clock
    reading. *)
Fixpoint serve_all (envs : list Env) (key path : string) (w : World) : World :=
  match envs with
  | [] => w
  | env :: rest => serve_all rest key path (snd (gated_request env key path w))
  end.

(* ===================================================================== *)
(** ** Sample data *)
(* ===================================================================== *)

Definition empty_world : World :=
  {| api_keys := []; api_usage_log := []; revenue_streams := [];
     dashboard_subscriptions := []; polymarket_markets := []; payments := [];
     _registration_attempts := ∅; tokens_minted := 0; db_trace := [] |}.

(** The key the migration script seeds, with a small limit. *)
Definition demo_key : ApiKeys.row :=
  new_key_row "demo-free-key" "free" (Some "demo@example.com") 2 3000.

Definition revoked_key : ApiKeys.row :=
  {| ApiKeys.api_key := "sk_old"; ApiKeys.tier := "basic";
     ApiKeys.customer_email := Some "old@example.com";
     ApiKeys.daily_limit := 1000; ApiKeys.monthly_limit := 30000;
     ApiKeys.subscription_status := "revoked";
     ApiKeys.email_sent := 0; ApiKeys.email_sent_at := None |}.

Definition demo_world : World := with_api_keys (fun _ => [demo_key]) empty_world.

Definition revoked_world : World :=
  with_api_keys (fun _ => [demo_key; revoked_key]) empty_world.

Definition demo_entropy (n : nat) : string :=
  match n with
  | O => "tokA"
  | 1%nat => "tokB"
  | _ => "tokC"
  end.

(** A server on UTC, at 12:00 on day 19875. *)
Definition utc_env : Env :=
  {| now := 19875 * 86400 + 43200; utcoffset := 0; duration_ms := 5;
     entropy := demo_entropy;
     construct_event := fun _ _ _ => SignatureVerificationError;
     STRIPE_SECRET_KEY := Some "sk_live_x";
     STRIPE_WEBHOOK_SECRET := Some "whsec_x";
     STRIPE_DASHBOARD_PRICE := None; STRIPE_BASIC_PRICE := None;
     STRIPE_PRO_PRICE := None; STRIPE_REVENUE_PRICE := None |}.

(** A server one hour east of UTC (British Summer Time), at 23:30 UTC on
    day 19875: its local date is already day 19876. *)
Definition bst_env : Env :=
  {| now := 19875 * 86400 + 84600; utcoffset := 3600; duration_ms := 5;
     entropy := demo_entropy;
     construct_event := fun _ _ _ => SignatureVerificationError;
     STRIPE_SECRET_KEY := Some "sk_live_x";
     STRIPE_WEBHOOK_SECRET := Some "whsec_x";
     STRIPE_DASHBOARD_PRICE := None; STRIPE_BASIC_PRICE := None;
     STRIPE_PRO_PRICE := None; STRIPE_REVENUE_PRICE := None |}.

Definition usage_at (t : Z) : UsageLog.row :=
  {| UsageLog.api_key := "demo-free-key"; UsageLog.endpoint := "/brain/status";
     UsageLog.response_time_ms := 5; UsageLog.status_code := 200;
     UsageLog.created_at := t |}.

(** The demo key (limit 2) with two requests logged at 23:10 and 23:20 UTC
    of day 19875. *)
Definition late_evening_world : World :=
  with_api_usage_log
    (fun _ => [usage_at (19875 * 86400 + 83400); usage_at (19875 * 86400 + 84000)])
    demo_world.

(** The same two requests logged at 10:00 and 11:00 UTC. *)
Definition used_up_world : World :=
  with_api_usage_log
    (fun _ => [usage_at (19875 * 86400 + 36000); usage_at (19875 * 86400 + 39600)])
    demo_world.

(** The demo key is stored and the address 203.0.113.7 has used its three
    registrations of the hour. *)
Definition capped_world : World :=
  with_registration_attempts
    (fun _ => <["203.0.113.7" := [now utc_env - 30; now utc_env - 20; now utc_env - 10]]> ∅)
    demo_world.


(** A verified [checkout.session.completed] event for the basic price. *)
Definition checkout_event : StripeEvent :=
  {| event_type := "checkout.session.completed";
     data_object :=
       {| object_id := Some "cs_test_1";
          customer_email := Some "test@example.com";
          line_items := [Some "price_1SzPt7LnWY7IoSqm5YXJEHwy"];
          metadata_price_id := Some "price_1SzPt7LnWY7IoSqm5YXJEHwy" |} |}.

(** A configured server for which the SDK accepts every signature and
    delivers [checkout_event]. *)
Definition checkout_env : Env :=
  {| now := 19875 * 86400 + 43200; utcoffset := 0; duration_ms := 5;
     entropy := demo_entropy;
     construct_event := fun _ _ _ => Constructed checkout_event;
     STRIPE_SECRET_KEY := Some "sk_live_x";
     STRIPE_WEBHOOK_SECRET := Some "whsec_x";
     STRIPE_DASHBOARD_PRICE := None; STRIPE_BASIC_PRICE := None;
     STRIPE_PRO_PRICE := None; STRIPE_REVENUE_PRICE := None |}.



(** The stream of the repository's revenue test. *)
Definition brain_api_stream : RevenueStream :=
  {| rs_name := "AIDAN Brain API"; rs_category := "api";
     rs_monthly_revenue := 500; rs_potential_monthly := 5000;
     rs_growth_rate := 10.5;
     rs_notes := Some "AI memory and knowledge search API" |}.

(** The store after that stream has been created in an empty ledger. *)
Definition one_stream_world : World :=
  snd (create_revenue_stream utc_env brain_api_stream (Some "demo-free-key") demo_world).

Definition open_market : PolymarketMarkets.row :=
  {| PolymarketMarkets.id := "0xaaa";
     PolymarketMarkets.question := Some "Will it rain tomorrow?";
     PolymarketMarkets.category := Some "weather";
     PolymarketMarkets.volume24h := Some 1200.5%float;
     PolymarketMarkets.active := Some 1;
     PolymarketMarkets.outcomes := Some "[1, 0]";
     PolymarketMarkets.raw_data := None;
     PolymarketMarkets.updated_at := 19875 * 86400 |}.

Definition closed_market : PolymarketMarkets.row :=
  {| PolymarketMarkets.id := "0xbbb";
     PolymarketMarkets.question := Some "Did it rain yesterday?";
     PolymarketMarkets.category := Some "weather";
     PolymarketMarkets.volume24h := Some 9000%float;
     PolymarketMarkets.active := Some 0;
     PolymarketMarkets.outcomes := Some "[1, 0]";
     PolymarketMarkets.raw_data := None;
     PolymarketMarkets.updated_at := 19875 * 86400 |}.

(** The demo key plus one open and one closed market. *)
Definition markets_world : World :=
  {| api_keys := [demo_key]; api_usage_log := []; revenue_streams := [];
     dashboard_subscriptions := [];
     polymarket_markets := [closed_market; open_market]; payments := [];
     _registration_attempts := ∅; tokens_minted := 0; db_trace := [] |}.

(** A stand-in for [json.loads] that keeps the text. *)
Definition keep_text (s : string) : option string := Some s.

(** No address has more than the cap's worth of timestamps on record. *)
Definition window_bounded (w : World) : Prop :=
  forall ip l, _registration_attempts w !! ip = Some l ->
    (length l <= MAX_REGISTRATIONS_PER_IP)%nat.

(** One hour after [utc_env]. *)
Definition hour_later_env : Env :=
  {| now := now utc_env + 3600; utcoffset := 0; duration_ms := 5;
     entropy := demo_entropy;
     construct_event := fun _ _ _ => SignatureVerificationError;
     STRIPE_SECRET_KEY := Some "sk_live_x";
     STRIPE_WEBHOOK_SECRET := Some "whsec_x";
     STRIPE_DASHBOARD_PRICE := None; STRIPE_BASIC_PRICE := None;
     STRIPE_PRO_PRICE := None; STRIPE_REVENUE_PRICE := None |}.

(** A configured server for which the SDK accepts every signature and
    delivers [event]. *)
Definition env_delivering (event : StripeEvent) : Env :=
  {| now := 19875 * 86400 + 43200; utcoffset := 0; duration_ms := 5;
     entropy := demo_entropy;
     construct_event := fun _ _ _ => Constructed event;
     STRIPE_SECRET_KEY := Some "sk_live_x";
     STRIPE_WEBHOOK_SECRET := Some "whsec_x";
     STRIPE_DASHBOARD_PRICE := None; STRIPE_BASIC_PRICE := None;
     STRIPE_PRO_PRICE := None; STRIPE_REVENUE_PRICE := None |}.

(** A checkout for the dashboard price, named in the metadata only. *)
Definition dashboard_event : StripeEvent :=
  {| event_type := "checkout.session.completed";
     data_object :=
       {| object_id := Some "cs_test_2";
          customer_email := Some "dash@example.com";
          line_items := [];
          metadata_price_id := Some "price_1T1MFxLnWY7IoSqmd8R3pGJV" |} |}.

Definition invoice_event : StripeEvent :=
  {| event_type := "invoice.paid";
     data_object :=
       {| object_id := Some "in_1"; customer_email := Some "test@example.com";
          line_items := []; metadata_price_id := None |} |}.

Definition payment_succeeded_event : StripeEvent :=
  {| event_type := "payment_intent.succeeded";
     data_object :=
       {| object_id := Some "pi_1"; customer_email := None;
          line_items := []; metadata_price_id := None |} |}.

Definition pending_payment (pid : string) : Payments.row :=
  {| Payments.payment_intent_id := pid; Payments.amount_pence := 1000;
     Payments.currency := "gbp"; Payments.status := "requires_payment_method";
     Payments.updated_at := 19875 * 86400 |}.

Definition payments_world : World :=
  with_payments (fun _ => [pending_payment "pi_1"; pending_payment "pi_2"]) empty_world.

(** The payment-status columns a webhook event may rewrite are [status]
    and [updated_at]; everything else of a payment is fixed. *)
Definition same_payment (r r' : Payments.row) : Prop :=
  Payments.payment_intent_id r' = Payments.payment_intent_id r /\
  Payments.amount_pence r' = Payments.amount_pence r /\
  Payments.currency r' = Payments.currency r.

(** The characters [html.escape] exists to remove. *)
Definition is_markup (c : ascii) : bool :=
  Ascii.eqb c "<" || Ascii.eqb c ">" || Ascii.eqb c char_quot || Ascii.eqb c char_apos.


(** The streams are listed newest first. *)
Fixpoint newest_first (l : list RevenueStreams.row) : Prop :=
  match l with
  | [] => True
  | x :: rest =>
      (forall y, In y rest -> RevenueStreams.created_at y <= RevenueStreams.created_at x)
      /\ newest_first rest
  end.

(** Stream identifiers are pairwise distinct. *)
Definition unique_ids (rows : list RevenueStreams.row) : Prop :=
  NoDup (map RevenueStreams.id rows).

(** The characters some class of the expression accepts. *)
Fixpoint alphabet (r : regex) (c : ascii) : bool :=
  match r with
  | Void => false
  | Eps => false
  | Class p => p c
  | Seq r s => alphabet r c || alphabet s c
  | Alt r s => alphabet r c || alphabet s c
  | Star r => alphabet r c
  end.

(** The characters an address accepted by [EMAIL_RE] can be made of. *)
Definition email_char (c : ascii) : bool :=
  local_char c || Ascii.eqb "@" c || Ascii.eqb char_newline c.

(** What one status update does to the payments table. *)
Definition marked (env : Env) (status pid : string) (r : Payments.row) : Payments.row :=
  if String.eqb (Payments.payment_intent_id r) pid then
    {| Payments.payment_intent_id := Payments.payment_intent_id r;
       Payments.amount_pence := Payments.amount_pence r;
       Payments.currency := Payments.currency r;
       Payments.status := status;
       Payments.updated_at := now env |}
  else r.

(* ===================================================================== *)
(** ** Running the gate *)
(* ===================================================================== *)

(** Two worlds that differ only in how the appended events are
    bracketed. *)
Ltac same_trace :=
  unfold traced, with_db_trace, slot_taken; simpl; now rewrite <- !app_assoc.

Lemma traced_traced (e1 e2 : list db_event) (w : World) :
  traced e2 (traced e1 w) = traced (e1 ++ e2) w.
Proof.
  unfold traced, with_db_trace; simpl. now rewrite <- app_assoc.
Qed.

Lemma traced_same_state (evs : list db_event) (w : World) :
  same_state w (traced evs w).
Proof. repeat split. Qed.

Lemma same_state_refl (w : World) : same_state w w.
Proof. repeat split. Qed.

Lemma get_key_info_run (api_key : string) (w : World) :
  get_key_info api_key w =
  (Ok (find_key_info api_key w),
   traced [EvConnect; EvExecute SELECT "api_keys"; EvClose] w).
Proof.
  unfold get_key_info, find_key_info, bind, try_finally, select, get_db,
    conn_close, log_event, ret; simpl.
  destruct (fetchone _); simpl; same_trace.
Qed.

Lemma check_rate_limit_run (env : Env) (api_key : string) (limit : Z) (w : World) :
  check_rate_limit env api_key limit w =
  (Ok (usage_on_day api_key (strftime_today env) w <? limit),
   traced [EvConnect; EvExecute SELECT "api_usage_log"; EvClose] w).
Proof.
  unfold check_rate_limit, usage_on_day, bind, try_finally, select, get_db,
    conn_close, log_event, ret; simpl.
  same_trace.
Qed.

(** The gate as one case analysis: which answer, and which statements the
    database saw. *)
Lemma get_auth_run (env : Env) (x_api_key : option string) (w : World) :
  get_auth env x_api_key w =
  if negb (truthy x_api_key) then
    (Raise (HTTPException 401 "Missing X-API-Key header"), w)
  else
    let key := default EmptyString x_api_key in
    match find_key_info key w with
    | None =>
        (Raise (HTTPException 403 "Invalid API key"),
         traced [EvConnect; EvExecute SELECT "api_keys"; EvClose] w)
    | Some info =>
        let w' := traced [EvConnect; EvExecute SELECT "api_keys"; EvClose;
                          EvConnect; EvExecute SELECT "api_usage_log"; EvClose] w in
        if usage_on_day key (strftime_today env) w <? info_daily_limit info
        then (Ok info, w')
        else (Raise (HTTPException 429 "Rate limit exceeded"), w')
    end.
Proof.
  unfold get_auth. destruct (negb (truthy x_api_key)); [reflexivity|].
  unfold bind at 1. rewrite get_key_info_run. cbv zeta.
  destruct (find_key_info _ w) as [info|] eqn:E; [|reflexivity].
  unfold bind. rewrite check_rate_limit_run, traced_traced. simpl app.
  change (usage_on_day ?k ?d (traced ?e w)) with (usage_on_day k d w).
  destruct (_ <? _); reflexivity.
Qed.

Lemma get_auth_same_state (env : Env) (x_api_key : option string) (w : World) :
  same_state w (snd (get_auth env x_api_key w)).
Proof.
  rewrite get_auth_run. destruct (negb _); [apply same_state_refl|]. cbv zeta.
  destruct (find_key_info _ w); [destruct (_ <? _)|]; apply traced_same_state.
Qed.

(** A gate that lets the request through has only read. *)
Lemma get_auth_ok_traced (env : Env) (x_api_key : option string) (w w' : World)
    (info : KeyInfo) :
  get_auth env x_api_key w = (Ok info, w') ->
  w' = traced [EvConnect; EvExecute SELECT "api_keys"; EvClose;
               EvConnect; EvExecute SELECT "api_usage_log"; EvClose] w.
Proof.
  rewrite get_auth_run. destruct (negb _); [discriminate|]. cbv zeta.
  destruct (find_key_info _ w); [|discriminate].
  destruct (_ <? _); [|discriminate]. now intros [= _ <-].
Qed.

Lemma find_key_info_none (x_api_key : option string) (w : World) :
  no_active_row x_api_key w ->
  truthy x_api_key = true ->
  find_key_info (default EmptyString x_api_key) w = None.
Proof.
  intros Hno Ht. destruct x_api_key as [k|]; [|discriminate]. simpl.
  unfold find_key_info, fetchone.
  destruct (List.filter (key_is_active k) (api_keys w)) as [|r l] eqn:E; [reflexivity|].
  exfalso.
  assert (Hin : In r (List.filter (key_is_active k) (api_keys w)))
    by (rewrite E; now left).
  apply filter_In in Hin as [Hin Hact].
  unfold key_is_active in Hact. apply andb_prop in Hact as [Hk Hs].
  apply String.eqb_eq in Hk, Hs.
  apply (Hno r Hin); [now rewrite Hk | exact Hs].
Qed.

(* ===================================================================== *)
(** ** The authorization gate: properties *)
(* ===================================================================== *)

(** For a token that is present and resolves to an active key, the gate
    answers by comparing the key's limit with the number of usage rows of
    the token whose stored date equals the date of the server's local
    clock. *)
Lemma get_auth_active_key (env : Env) (key : string) (w : World) (info : KeyInfo) :
  str_truthy key = true ->
  find_key_info key w = Some info ->
  fst (get_auth env (Some key) w) =
  if usage_on_day key (strftime_today env) w <? info_daily_limit info
  then Ok info
  else Raise (HTTPException 429 "Rate limit exceeded").
Proof.
  intros Hk Hf. rewrite get_auth_run. simpl. rewrite Hk. simpl. rewrite Hf.
  destruct (_ <? _); reflexivity.
Qed.

(** On a server whose local time zone is UTC the count is the one of the
    current UTC date: at least [L] rows of today give RateLimited, fewer
    let the request through with the key's tier and limit. *)
Lemma get_auth_utc_server (env : Env) (key : string) (w : World) (info : KeyInfo) :
  utcoffset env = 0 ->
  str_truthy key = true ->
  find_key_info key w = Some info ->
  (info_daily_limit info <= usage_on_day key (utc_today env) w ->
   fst (get_auth env (Some key) w) = Raise (HTTPException 429 "Rate limit exceeded")) /\
  (usage_on_day key (utc_today env) w < info_daily_limit info ->
   fst (get_auth env (Some key) w) = Ok info).
Proof.
  intros Hz Hk Hf. rewrite (get_auth_active_key env key w info Hk Hf).
  unfold strftime_today, utc_today. rewrite Hz, Z.add_0_r.
  split; intros H.
  - apply Z.ltb_ge in H. now rewrite H.
  - apply Z.ltb_lt in H. now rewrite H.
Qed.

Lemma get_auth_utc_server_witness :
  fst (get_auth utc_env (Some "demo-free-key") used_up_world)
  = Raise (HTTPException 429 "Rate limit exceeded").
Proof.
  apply (proj1 (get_auth_utc_server utc_env "demo-free-key" used_up_world
                  {| info_tier := "free"; info_name := Some "demo@example.com";
                     info_daily_limit := 2 |}
                  eq_refl eq_refl eq_refl)).
  vm_compute. discriminate.
Defined.

(** C1 (evaluation at the failing input).  The server's clock is one hour
    east of UTC and it is 23:30 UTC.  The demo key has daily limit 2 and
    two requests of the current UTC date are in the usage ledger, so the
    count for the current UTC date has reached the limit; the gate
    nevertheless lets the third request through, because it compares the
    stored UTC dates with the local date, which is already the next day. *)
Theorem get_auth_counts_local_date_not_utc :
  find_key_info "demo-free-key" late_evening_world
    = Some {| info_tier := "free"; info_name := Some "demo@example.com";
              info_daily_limit := 2 |} /\
  usage_on_day "demo-free-key" (utc_today bst_env) late_evening_world = 2 /\
  usage_on_day "demo-free-key" (strftime_today bst_env) late_evening_world = 0 /\
  fst (get_auth bst_env (Some "demo-free-key") late_evening_world)
    = Ok {| info_tier := "free"; info_name := Some "demo@example.com";
            info_daily_limit := 2 |}.
Proof. repeat split; vm_compute; reflexivity. Qed.

(** C2.  A missing token (no header, or an empty one) is answered with
    401 Unauthenticated.  A token that is unknown, or known only with a
    status other than active, is answered with 403 Forbidden; the answer
    is the same exception, with the same detail, in both cases, whatever
    the key store holds. *)
Theorem get_auth_rejects_missing_and_unusable_tokens
    (env1 env2 : Env) (w1 w2 : World) (x_api_key : option string) :
  no_active_row x_api_key w1 ->
  no_active_row x_api_key w2 ->
  fst (get_auth env1 x_api_key w1)
    = (if truthy x_api_key
       then Raise (HTTPException 403 "Invalid API key")
       else Raise (HTTPException 401 "Missing X-API-Key header")) /\
  fst (get_auth env2 x_api_key w2) = fst (get_auth env1 x_api_key w1) /\
  error_kind 401 = Some Unauthenticated /\
  error_kind 403 = Some Forbidden.
Proof.
  intros H1 H2.
  assert (G : forall env w, no_active_row x_api_key w ->
            fst (get_auth env x_api_key w)
            = (if truthy x_api_key
               then Raise (HTTPException 403 "Invalid API key")
               else Raise (HTTPException 401 "Missing X-API-Key header"))).
  { intros env w Hno. rewrite get_auth_run.
    destruct (truthy x_api_key) eqn:Ht; simpl; [|reflexivity].
    now rewrite (find_key_info_none x_api_key w Hno Ht). }
  repeat split.
  - now apply G.
  - now rewrite !G.
Qed.

(** The unknown token and the revoked token get the same answer. *)
Lemma get_auth_rejects_witness :
  fst (get_auth utc_env (Some "sk_old") demo_world)
    = Raise (HTTPException 403 "Invalid API key") /\
  fst (get_auth bst_env (Some "sk_old") revoked_world)
    = fst (get_auth utc_env (Some "sk_old") demo_world).
Proof.
  assert (H1 : no_active_row (Some "sk_old") demo_world).
  { intros r Hin Hk. simpl in Hin. destruct Hin as [<-|[]]. discriminate Hk. }
  assert (H2 : no_active_row (Some "sk_old") revoked_world).
  { intros r Hin Hk. simpl in Hin.
    destruct Hin as [<-|[<-|[]]]; [discriminate Hk|]. simpl. discriminate. }
  pose proof (get_auth_rejects_missing_and_unusable_tokens
                utc_env bst_env demo_world revoked_world (Some "sk_old") H1 H2) as H.
  split; [exact (proj1 H) | exact (proj1 (proj2 H))].
Defined.

(* ===================================================================== *)
(** ** Self-registration: properties *)
(* ===================================================================== *)

Lemma fetchone_filter_none {R : Type} (f : R -> bool) (l : list R) :
  fetchone (List.filter f l) = None <-> (forall r, In r l -> f r = false).
Proof.
  unfold fetchone. split.
  - intros H r Hin. destruct (f r) eqn:E; [|reflexivity].
    assert (Hin' : In r (List.filter f l)) by (apply filter_In; now split).
    destruct (List.filter f l); [destruct Hin' | discriminate].
  - intros H. destruct (List.filter f l) as [|r l'] eqn:E; [reflexivity|].
    assert (Hin : In r (List.filter f l)) by (rewrite E; now left).
    apply filter_In in Hin as [Hin Hf]. rewrite (H r Hin) in Hf. discriminate.
Qed.

Lemma fetchone_filter_some {R : Type} (f : R -> bool) (l : list R) (r : R) :
  In r l -> f r = true -> exists r', fetchone (List.filter f l) = Some r'.
Proof.
  intros Hin Hf. destruct (fetchone (List.filter f l)) as [r'|] eqn:E; [now exists r'|].
  rewrite fetchone_filter_none in E. rewrite (E r Hin) in Hf. discriminate.
Qed.

(** [register] as one case analysis. *)
Lemma register_run (env : Env) (email : string) (client : option string) (w : World) :
  register env email client w =
  if negb (EMAIL_RE_match email) then (Raise invalid_email_400, w)
  else
    let ip := client_host client in
    if (MAX_REGISTRATIONS_PER_IP <=? length (recent_attempts env ip w))%nat then
      (Raise too_many_429, slot_refused env ip w)
    else
      let api_key := minted_key env (tokens_minted w) in
      let w2 := with_tokens_minted S (slot_taken env ip w) in
      match fetchone (List.filter (active_for_email email) (api_keys w)) with
      | Some _ =>
          (Raise conflict_409,
           traced [EvConnect; EvExecute SELECT "api_keys"; EvClose] w2)
      | None =>
          if key_taken api_key w then
            (Raise registration_failed_500,
             traced [EvConnect; EvExecute SELECT "api_keys";
                     EvExecute INSERT "api_keys"; EvClose] w2)
          else
            (Ok {| reg_api_key := api_key; reg_tier := "free";
                   reg_daily_limit := 100;
                   reg_message := "Keep this key secure." |},
             traced [EvConnect; EvExecute SELECT "api_keys";
                     EvExecute INSERT "api_keys"; EvCommit; EvClose]
               (with_api_keys
                  (fun t => t ++ [new_key_row api_key "free" (Some email) 100 3000])
                  w2))
      end.
Proof.
  unfold register. destruct (negb (EMAIL_RE_match email)); [reflexivity|].
  cbv zeta. unfold bind at 1. unfold check_registration_rate.
  destruct (MAX_REGISTRATIONS_PER_IP <=? _)%nat; [reflexivity|].
  simpl negb. cbv iota.
  unfold token_urlsafe, try_finally, try_except, select, get_db,
    conn_close, conn_commit, insert_api_key, log_event, ret, raise, bind; simpl.
  destruct (fetchone _); simpl.
  - same_trace.
  - unfold key_taken, minted_key.
    destruct (existsb _ (api_keys w)); simpl; same_trace.
Qed.



Lemma filter_filter_same {A : Type} (f : A -> bool) (l : list A) :
  List.filter f (List.filter f l) = List.filter f l.
Proof.
  induction l as [|a l IH]; simpl; [reflexivity|].
  destruct (f a) eqn:E; simpl; [rewrite E, IH|]; auto.
Qed.

Lemma recent_attempts_slot_taken (env : Env) (ip : string) (w : World) :
  recent_attempts env ip (slot_taken env ip w) = recent_attempts env ip w ++ [now env].
Proof.
  set (f := fun t => now env - t <? REGISTRATION_WINDOW_SECONDS).
  assert (E : forall w0, recent_attempts env ip w0
                         = List.filter f (default [] (_registration_attempts w0 !! ip)))
    by reflexivity.
  rewrite (E (slot_taken env ip w)).
  change (_registration_attempts (slot_taken env ip w))
    with (<[ip := recent_attempts env ip w ++ [now env]]> (_registration_attempts w)).
  rewrite lookup_insert_eq. simpl default.
  rewrite List.filter_app, (E w), filter_filter_same.
  f_equal. subst f. simpl. rewrite Z.sub_diag. reflexivity.
Qed.

Lemma check_registration_rate_grants (env : Env) (ip : string) (w : World) :
  (length (recent_attempts env ip w) < MAX_REGISTRATIONS_PER_IP)%nat ->
  check_registration_rate env ip w = (Ok true, slot_taken env ip w).
Proof.
  intros H. unfold check_registration_rate.
  apply Nat.leb_gt in H. now rewrite H.
Qed.

Lemma has_active_key_fetchone (email : string) (w : World) :
  has_active_key email w ->
  exists row, fetchone (List.filter (active_for_email email) (api_keys w)) = Some row.
Proof.
  intros [row [Hin Hact]]. exact (fetchone_filter_some _ _ row Hin Hact).
Qed.

Lemma no_active_key_fetchone (email : string) (w : World) :
  ~ has_active_key email w ->
  fetchone (List.filter (active_for_email email) (api_keys w)) = None.
Proof.
  intros H. apply fetchone_filter_none. intros r Hin.
  destruct (active_for_email email r) eqn:E; [|reflexivity].
  exfalso. apply H. now exists r.
Qed.

(** C10.  For a well-formed email from an address below the hourly cap,
    the registration slot is taken by [check_registration_rate] while the
    database has not been touched yet, and nothing that follows gives it
    back: when the request then fails with 409 Conflict (an active key
    exists for the email) or with 500 (the store refuses the insert), the
    attempt is in the address's window all the same.  If it was the third
    attempt of the hour, the next registration from that address is
    answered with 429. *)
Theorem register_slot_consumed_before_duplicate_check
    (env : Env) (email : string) (client : option string) (w : World) :
  EMAIL_RE_match email = true ->
  (length (recent_attempts env (client_host client) w) < MAX_REGISTRATIONS_PER_IP)%nat ->
  let ip := client_host client in
  let r := fst (register env email client w) in
  let w' := snd (register env email client w) in
  check_registration_rate env ip w = (Ok true, slot_taken env ip w) /\
  db_trace (slot_taken env ip w) = db_trace w /\
  _registration_attempts w' = _registration_attempts (slot_taken env ip w) /\
  recent_attempts env ip w' = recent_attempts env ip w ++ [now env] /\
  (has_active_key email w -> r = Raise conflict_409) /\
  (~ has_active_key email w ->
   key_taken (minted_key env (tokens_minted w)) w = true ->
   r = Raise registration_failed_500) /\
  (http_status r = 200 \/ http_status r = 409 \/ http_status r = 500) /\
  (length (recent_attempts env ip w) = 2%nat ->
   forall email2, EMAIL_RE_match email2 = true ->
     fst (register env email2 client w') = Raise too_many_429).
Proof.
  intros Hm Hcap ip r w'.
  assert (Hleb : (MAX_REGISTRATIONS_PER_IP <=? length (recent_attempts env ip w))%nat = false)
    by now apply Nat.leb_gt.
  assert (Hrun := register_run env email client w).
  rewrite Hm in Hrun. simpl negb in Hrun. cbv iota zeta in Hrun.
  fold ip in Hrun. rewrite Hleb in Hrun.
  assert (Hatt : _registration_attempts w' = _registration_attempts (slot_taken env ip w)).
  { subst w'. rewrite Hrun.
    destruct (fetchone _); [reflexivity|]. destruct (key_taken _ w); reflexivity. }
  assert (Hrec : recent_attempts env ip w' = recent_attempts env ip w ++ [now env]).
  { rewrite <- recent_attempts_slot_taken. unfold recent_attempts. now rewrite Hatt. }
  split; [now apply check_registration_rate_grants|].
  split; [reflexivity|].
  split; [exact Hatt|].
  split; [exact Hrec|].
  split; [|split; [|split]].
  - intros Hact. apply has_active_key_fetchone in Hact as [row Hrow].
    subst r. rewrite Hrun, Hrow. reflexivity.
  - intros Hno Htaken. apply no_active_key_fetchone in Hno.
    subst r. rewrite Hrun, Hno, Htaken. reflexivity.
  - subst r. rewrite Hrun.
    destruct (fetchone _); [right; left; reflexivity|].
    destruct (key_taken _ w); [right; right|left]; reflexivity.
  - intros Hlen email2 Hm2. rewrite register_run, Hm2. simpl negb. cbv iota zeta.
    fold ip. rewrite Hrec, length_app, Hlen. reflexivity.
Qed.

Lemma demo_email_has_active_key (w : World) :
  api_keys w = [demo_key] -> has_active_key "demo@example.com" w.
Proof.
  intros H. exists demo_key. rewrite H. split; [now left | reflexivity].
Qed.

(** A duplicate registration from a fresh address: 409, and the attempt
    is recorded. *)
Lemma register_slot_consumed_witness :
  fst (register utc_env "demo@example.com" (Some "203.0.113.7") demo_world)
    = Raise conflict_409 /\
  recent_attempts utc_env "203.0.113.7"
    (snd (register utc_env "demo@example.com" (Some "203.0.113.7") demo_world))
    = [now utc_env].
Proof.
  pose proof (register_slot_consumed_before_duplicate_check
                utc_env "demo@example.com" (Some "203.0.113.7") demo_world
                eq_refl (Nat.lt_0_succ 2)) as H.
  cbv zeta in H.
  destruct H as (_ & _ & _ & Hrec & Hconf & _).
  split.
  - apply Hconf. now apply demo_email_has_active_key.
  - exact Hrec.
Defined.

(** C7 (as stated, at a concrete input).  An active key exists for
    demo@example.com, yet a registration with that email from an address
    that has used its three attempts of the hour is answered with 429
    RateLimited, not with Conflict. *)
Lemma register_duplicate_from_capped_address :
  fetchone (List.filter (active_for_email "demo@example.com") (api_keys capped_world))
    = Some demo_key /\
  fst (register utc_env "demo@example.com" (Some "203.0.113.7") capped_world)
    = Raise (HTTPException 429 "Too many registrations. Try again later.") /\
  error_kind (http_status
                (fst (register utc_env "demo@example.com" (Some "203.0.113.7")
                        capped_world)))
    = Some RateLimited.
Proof. repeat split; vm_compute; reflexivity. Qed.

(** C7 (amended).  When an active key exists for an email, a registration
    with that email leaves the key table as it is, whatever the answer,
    so every stored token resolves exactly as before; the answer is 409
    Conflict when the email is well formed and the address is below the
    hourly cap, 400 when the email is malformed, 429 when the cap is
    reached. *)
Theorem register_existing_email_conflict_keeps_first_key
    (env : Env) (email : string) (client : option string) (w : World) :
  has_active_key email w ->
  let ip := client_host client in
  let r := fst (register env email client w) in
  let w' := snd (register env email client w) in
  api_keys w' = api_keys w /\
  (forall token, find_key_info token w' = find_key_info token w) /\
  (EMAIL_RE_match email = true ->
   (length (recent_attempts env ip w) < MAX_REGISTRATIONS_PER_IP)%nat ->
   r = Raise conflict_409 /\ error_kind (http_status r) = Some Conflict) /\
  (EMAIL_RE_match email = false -> r = Raise invalid_email_400) /\
  (EMAIL_RE_match email = true ->
   (MAX_REGISTRATIONS_PER_IP <= length (recent_attempts env ip w))%nat ->
   r = Raise too_many_429).
Proof.
  intros Hact ip r w'.
  destruct (has_active_key_fetchone email w Hact) as [row Hrow].
  assert (Hrun := register_run env email client w).
  rewrite Hrow in Hrun. cbv zeta in Hrun. fold ip in Hrun.
  assert (Hkeys : api_keys w' = api_keys w).
  { subst w'. rewrite Hrun. destruct (negb _); [reflexivity|].
    destruct (_ <=? _)%nat; reflexivity. }
  split; [exact Hkeys|].
  split; [intros token; unfold find_key_info; now rewrite Hkeys|].
  split; [|split].
  - intros Hm Hcap. apply Nat.leb_gt in Hcap.
    subst r. rewrite Hrun, Hm, Hcap. split; reflexivity.
  - intros Hm. subst r. rewrite Hrun, Hm. reflexivity.
  - intros Hm Hcap. apply Nat.leb_le in Hcap.
    subst r. rewrite Hrun, Hm, Hcap. reflexivity.
Qed.

Lemma register_existing_email_witness :
  api_keys (snd (register utc_env "demo@example.com" (Some "203.0.113.7") demo_world))
    = [demo_key] /\
  fst (register utc_env "demo@example.com" (Some "203.0.113.7") demo_world)
    = Raise conflict_409.
Proof.
  pose proof (register_existing_email_conflict_keeps_first_key
                utc_env "demo@example.com" (Some "203.0.113.7") demo_world
                (demo_email_has_active_key demo_world eq_refl)) as H.
  cbv zeta in H.
  destruct H as (Hkeys & _ & Hconf & _).
  split.
  - exact Hkeys.
  - exact (proj1 (Hconf eq_refl (Nat.lt_0_succ 2))).
Defined.

(* ===================================================================== *)
(** ** The payment webhook: properties *)
(* ===================================================================== *)

(** The key-minting branch of a checkout event as one case analysis on
    the two possible collisions. *)
Lemma checkout_session_completed_run (env : Env) (session : StripeObject) (w : World) :
  opt_str_eqb (session_price_id session) (Some (DASHBOARD_PRICE env)) = false ->
  checkout_session_completed env session w =
  let tier := tier_of_price env (session_price_id session) in
  let daily_limit := default 1000 (tier_limits !! tier) in
  let row key :=
    new_key_row key tier (customer_email session) daily_limit (daily_limit * 30) in
  let first := minted_key env (tokens_minted w) in
  let second := minted_key env (S (tokens_minted w)) in
  if key_taken first w then
    if key_taken second w then
      (Raise IntegrityError,
       traced [EvConnect; EvExecute INSERT "api_keys"; EvExecute INSERT "api_keys";
               EvClose]
         (with_tokens_minted (fun n => S (S n)) w))
    else
      (Ok "received",
       traced [EvConnect; EvExecute INSERT "api_keys"; EvExecute INSERT "api_keys";
               EvCommit; EvClose]
         (with_api_keys (fun t => t ++ [row second])
            (with_tokens_minted (fun n => S (S n)) w)))
  else
    (Ok "received",
     traced [EvConnect; EvExecute INSERT "api_keys"; EvCommit; EvClose]
       (with_api_keys (fun t => t ++ [row first]) (with_tokens_minted S w))).
Proof.
  intros Hd. unfold checkout_session_completed. rewrite Hd. cbv zeta.
  unfold key_taken, minted_key.
  unfold token_urlsafe, try_finally, try_except, get_db, conn_close, conn_commit,
    insert_api_key, log_event, ret, raise, bind; simpl.
  destruct (existsb _ (api_keys w)); simpl.
  - destruct (existsb _ (api_keys w)); simpl; same_trace.
  - same_trace.
Qed.

(** What the handler does with a request that passed verification. *)
Lemma stripe_webhook_verified (env : Env) (payload : string)
    (sig_header : option string) (w : World) (event : StripeEvent) :
  truthy (STRIPE_SECRET_KEY env) = true ->
  truthy (STRIPE_WEBHOOK_SECRET env) = true ->
  truthy sig_header = true ->
  construct_event env payload (default EmptyString sig_header)
    (default EmptyString (STRIPE_WEBHOOK_SECRET env)) = Constructed event ->
  stripe_webhook env payload sig_header w =
  if String.eqb (event_type event) "checkout.session.completed"
  then checkout_session_completed env (data_object event) w
  else (Ok "received", w).
Proof.
  intros H1 H2 H3 H4. unfold stripe_webhook. rewrite H1, H2, H3, H4. simpl.
  destruct (String.eqb _ _); reflexivity.
Qed.




(** Every way the main handler turns a request away before it has an
    event leaves the world untouched. *)
Lemma stripe_webhook_without_event_no_effect (env : Env) (payload : string)
    (sig_header : option string) (w : World) :
  (forall event,
     construct_event env payload (default EmptyString sig_header)
       (default EmptyString (STRIPE_WEBHOOK_SECRET env)) <> Constructed event) ->
  snd (stripe_webhook env payload sig_header w) = w /\
  (http_status (fst (stripe_webhook env payload sig_header w)) = 400 \/
   http_status (fst (stripe_webhook env payload sig_header w)) = 503).
Proof.
  intros H. unfold stripe_webhook.
  destruct (negb (truthy (STRIPE_SECRET_KEY env)) || negb (truthy (STRIPE_WEBHOOK_SECRET env)));
    [split; [reflexivity | now right]|].
  destruct (negb (truthy sig_header)); [split; [reflexivity | now left]|].
  destruct (construct_event _ _ _ _) as [event| |] eqn:E;
    [now destruct (H event) | |]; split; first [reflexivity | now left].
Qed.

(** C4.  On a server with both secrets configured, a request whose
    signature header is missing or whose signature the SDK refuses is
    answered with a 400 (detail "Invalid signature" when a signature was
    presented) by the main handler and by the payment microservice alike,
    and the world after the call is the world before it: no connection
    was opened, no statement sent, no key minted, no subscription row
    inserted, no token drawn. *)
Theorem stripe_webhook_unverified_rejected_before_any_mutation
    (env : Env) (payload : string) (sig_header : option string) (w : World) :
  truthy (STRIPE_SECRET_KEY env) = true ->
  truthy (STRIPE_WEBHOOK_SECRET env) = true ->
  unverified env payload sig_header (default EmptyString (STRIPE_WEBHOOK_SECRET env)) ->
  stripe_webhook env payload sig_header w =
    (Raise (HTTPException 400
              (if truthy sig_header then "Invalid signature" else "Missing signature")),
     w) /\
  stripe_api.stripe_webhook env payload sig_header w =
    (Raise (HTTPException 400
              (if truthy sig_header then "Invalid signature"
               else "Missing Stripe-Signature header")),
     w) /\
  api_keys (snd (stripe_webhook env payload sig_header w)) = api_keys w /\
  dashboard_subscriptions (snd (stripe_webhook env payload sig_header w))
    = dashboard_subscriptions w /\
  tokens_minted (snd (stripe_webhook env payload sig_header w)) = tokens_minted w /\
  db_trace (snd (stripe_webhook env payload sig_header w)) = db_trace w /\
  payments (snd (stripe_api.stripe_webhook env payload sig_header w)) = payments w.
Proof.
  intros H1 H2 Hu.
  assert (Hsecret : stripe_api.STRIPE_WEBHOOK_SECRET env
                    = default EmptyString (STRIPE_WEBHOOK_SECRET env)).
  { unfold stripe_api.STRIPE_WEBHOOK_SECRET.
    destruct (STRIPE_WEBHOOK_SECRET env); [reflexivity | discriminate H2]. }
  assert (Hmain : stripe_webhook env payload sig_header w =
    (Raise (HTTPException 400
              (if truthy sig_header then "Invalid signature" else "Missing signature")),
     w)).
  { unfold stripe_webhook. rewrite H1, H2. simpl.
    destruct Hu as [Hs|Hc].
    - now rewrite Hs.
    - destruct (truthy sig_header); simpl; [now rewrite Hc | reflexivity]. }
  assert (Hapi : stripe_api.stripe_webhook env payload sig_header w =
    (Raise (HTTPException 400
              (if truthy sig_header then "Invalid signature"
               else "Missing Stripe-Signature header")),
     w)).
  { unfold stripe_api.stripe_webhook. rewrite Hsecret.
    destruct Hu as [Hs|Hc].
    - now rewrite Hs.
    - destruct (truthy sig_header); simpl; [now rewrite Hc | reflexivity]. }
  rewrite Hmain, Hapi. repeat split.
Qed.

Lemma stripe_webhook_unverified_witness :
  stripe_webhook utc_env "{}" (Some "t=1,v1=forged") demo_world
    = (Raise (HTTPException 400 "Invalid signature"), demo_world) /\
  stripe_api.stripe_webhook utc_env "{}" (Some "t=1,v1=forged") demo_world
    = (Raise (HTTPException 400 "Invalid signature"), demo_world).
Proof.
  pose proof (stripe_webhook_unverified_rejected_before_any_mutation
                utc_env "{}" (Some "t=1,v1=forged") demo_world
                eq_refl eq_refl (or_intror eq_refl)) as H.
  split; [exact (proj1 H) | exact (proj1 (proj2 H))].
Defined.

(* ===================================================================== *)
(** ** The revenue ledger: properties *)
(* ===================================================================== *)

Lemma filter_all {A : Type} (l : list A) : List.filter (fun _ => true) l = l.
Proof. induction l as [|a l IH]; simpl; [|rewrite IH]; reflexivity. Qed.

Lemma get_auth_ok_run (env : Env) (x_api_key : option string) (w : World)
    (info : KeyInfo) :
  fst (get_auth env x_api_key w) = Ok info ->
  get_auth env x_api_key w = (Ok info, traced gate_events w).
Proof.
  intros H. destruct (get_auth env x_api_key w) as [r w'] eqn:E.
  simpl in H. subst r. now rewrite (get_auth_ok_traced _ _ _ _ _ E).
Qed.

Lemma get_revenue_summary_run (env : Env) (x_api_key : option string) (w : World)
    (info : KeyInfo) :
  fst (get_auth env x_api_key w) = Ok info ->
  get_revenue_summary env x_api_key w =
  (let rows := revenue_streams w in
   let monthly := coalesce0 (sql_sum (map RevenueStreams.monthly_revenue rows)) in
   let potential := coalesce0 (sql_sum (map RevenueStreams.potential_monthly rows)) in
   Ok {| total_streams := Z.of_nat (length rows);
         total_monthly_revenue := monthly;
         total_potential_revenue := potential;
         avg_growth_rate := coalesce0 (sql_avg (map RevenueStreams.growth_rate rows));
         revenue_gap := py_sub potential monthly |},
   traced (gate_events ++ [EvConnect; EvExecute SELECT "revenue_streams"; EvClose]) w).
Proof.
  intros H. unfold get_revenue_summary. unfold bind at 1.
  rewrite (get_auth_ok_run env x_api_key w info H).
  unfold try_finally, select, get_db, conn_close, log_event, ret, bind; simpl.
  rewrite filter_all.
  same_trace.
Qed.

Lemma create_revenue_stream_ok (env : Env) (stream : RevenueStream)
    (x_api_key : option string) (w w' : World) (resp : CreateResponse) :
  create_revenue_stream env stream x_api_key w = (Ok resp, w') ->
  stream_id resp = next_id (revenue_streams w) /\
  revenue_streams w' = revenue_streams w ++ [created_row env stream w].
Proof.
  unfold create_revenue_stream. unfold bind at 1.
  destruct (get_auth env x_api_key w) as [[info|e] w1] eqn:E; [|discriminate].
  pose proof (get_auth_same_state env x_api_key w) as Hs. rewrite E in Hs. simpl in Hs.
  destruct Hs as (_ & _ & Hrev & _).
  destruct (negb (str_in _ _)); [discriminate|].
  unfold try_finally, get_db, conn_close, conn_commit, log_event, ret, bind; simpl.
  intros [= <- <-]. simpl. unfold created_row. rewrite Hrev. split; reflexivity.
Qed.



(** The [SET] clause the handler assembles, run on a row, gives the
    patched row. *)
Lemma assignments_patch (env : Env) (update : RevenueStreamUpdate)
    (r : RevenueStreams.row) :
  fold_left (fun r a => assign env a r) (supplied_updates update ++ [SetUpdatedAt]) r
  = patched env update r.
Proof.
  destruct update as [[m|] [p|] [g|] [n|]]; reflexivity.
Qed.

Lemma apply_update_patched (env : Env) (update : RevenueStreamUpdate) (stream_id : Z)
    (rows : list RevenueStreams.row) :
  map (apply_update env (supplied_updates update ++ [SetUpdatedAt]) stream_id) rows
  = map (fun r => if Z.eqb (RevenueStreams.id r) stream_id
                  then patched env update r else r) rows.
Proof.
  apply map_ext. intros r. unfold apply_update.
  destruct (Z.eqb _ _); [apply assignments_patch | reflexivity].
Qed.

Lemma update_revenue_stream_run (env : Env) (stream_id : Z)
    (update : RevenueStreamUpdate) (x_api_key : option string) (w : World)
    (info : KeyInfo) :
  fst (get_auth env x_api_key w) = Ok info ->
  supplied_updates update <> [] ->
  update_revenue_stream env stream_id update x_api_key w =
  let rows' :=
    map (fun r => if Z.eqb (RevenueStreams.id r) stream_id
                  then patched env update r else r) (revenue_streams w) in
  if Nat.eqb (length (List.filter (fun r => Z.eqb (RevenueStreams.id r) stream_id)
                        (revenue_streams w))) 0
  then (Raise (HTTPException 404 "Revenue stream not found"),
        traced (gate_events ++ [EvConnect; EvExecute UPDATE "revenue_streams"; EvClose])
          (with_revenue_streams (fun _ => rows') w))
  else (Ok "Revenue stream updated successfully",
        traced (gate_events ++ [EvConnect; EvExecute UPDATE "revenue_streams";
                                EvCommit; EvClose])
          (with_revenue_streams (fun _ => rows') w)).
Proof.
  intros H Hsup. unfold update_revenue_stream. unfold bind at 1.
  rewrite (get_auth_ok_run env x_api_key w info H). cbv zeta.
  destruct (supplied_updates update) as [|a l] eqn:E; [now destruct Hsup|].
  rewrite <- E. replace (is_nil (supplied_updates update)) with false by now rewrite E.
  pose proof (apply_update_patched env update stream_id (revenue_streams w)) as Hp.
  set (updates := supplied_updates update ++ [SetUpdatedAt]) in *.
  unfold try_finally, get_db, conn_close, conn_commit, log_event, ret, raise, bind; simpl.
  destruct (Nat.eqb _ 0); simpl;
    unfold traced, with_db_trace, with_revenue_streams; simpl;
    rewrite Hp; now rewrite <- !app_assoc.
Qed.

(** C6.  For an existing stream and a request that passes the gate, a
    partial update succeeds and rewrites the stream's row to the patched
    row: [name], [category], [id] and [created_at] are never touched; each
    of [monthly_revenue], [potential_monthly], [growth_rate] and [notes]
    takes the supplied value (notes escaped) when the request supplies
    one and keeps its stored value otherwise; rows of other streams are
    left alone.  In particular a request with only [growth_rate] leaves
    [monthly_revenue], [potential_monthly], [notes], [name] and [category]
    as stored.  (The bookkeeping column [updated_at] is stamped with the
    current time on every update.) *)
Theorem update_revenue_stream_modifies_only_supplied_fields
    (env : Env) (stream_id : Z) (update : RevenueStreamUpdate)
    (x_api_key : option string) (w : World) (info : KeyInfo) (r : RevenueStreams.row) :
  fst (get_auth env x_api_key w) = Ok info ->
  supplied_updates update <> [] ->
  In r (revenue_streams w) ->
  RevenueStreams.id r = stream_id ->
  let res := update_revenue_stream env stream_id update x_api_key w in
  let r' := patched env update r in
  fst res = Ok "Revenue stream updated successfully" /\
  revenue_streams (snd res)
    = map (fun r0 => if Z.eqb (RevenueStreams.id r0) stream_id
                     then patched env update r0 else r0) (revenue_streams w) /\
  In r' (revenue_streams (snd res)) /\
  RevenueStreams.name r' = RevenueStreams.name r /\
  RevenueStreams.category r' = RevenueStreams.category r /\
  RevenueStreams.id r' = RevenueStreams.id r /\
  RevenueStreams.created_at r' = RevenueStreams.created_at r /\
  RevenueStreams.updated_at r' = now env /\
  RevenueStreams.monthly_revenue r'
    = match up_monthly_revenue update with
      | Some v => v
      | None => RevenueStreams.monthly_revenue r
      end /\
  RevenueStreams.potential_monthly r'
    = match up_potential_monthly update with
      | Some v => v
      | None => RevenueStreams.potential_monthly r
      end /\
  RevenueStreams.growth_rate r'
    = match up_growth_rate update with
      | Some v => v
      | None => RevenueStreams.growth_rate r
      end /\
  RevenueStreams.notes r'
    = match up_notes update with
      | Some v => Some (html_escape v)
      | None => RevenueStreams.notes r
      end /\
  (forall r0, In r0 (revenue_streams w) -> RevenueStreams.id r0 <> stream_id ->
     In r0 (revenue_streams (snd res))) /\
  (forall g, update = growth_rate_only g ->
     RevenueStreams.growth_rate r' = g /\
     RevenueStreams.monthly_revenue r' = RevenueStreams.monthly_revenue r /\
     RevenueStreams.potential_monthly r' = RevenueStreams.potential_monthly r /\
     RevenueStreams.notes r' = RevenueStreams.notes r /\
     RevenueStreams.name r' = RevenueStreams.name r /\
     RevenueStreams.category r' = RevenueStreams.category r).
Proof.
  intros Hauth Hsup Hin Hid res r'.
  assert (Hrun := update_revenue_stream_run env stream_id update x_api_key w info
                    Hauth Hsup).
  cbv zeta in Hrun.
  assert (Hcount : Nat.eqb (length (List.filter
                                      (fun r0 => Z.eqb (RevenueStreams.id r0) stream_id)
                                      (revenue_streams w))) 0 = false).
  { apply Nat.eqb_neq. intros Hlen. apply length_zero_iff_nil in Hlen.
    assert (Hr : In r (List.filter (fun r0 => Z.eqb (RevenueStreams.id r0) stream_id)
                         (revenue_streams w)))
      by (apply filter_In; split; [exact Hin | now apply Z.eqb_eq]).
    rewrite Hlen in Hr. destruct Hr. }
  rewrite Hcount in Hrun.
  assert (Htab : revenue_streams (snd res)
                 = map (fun r0 => if Z.eqb (RevenueStreams.id r0) stream_id
                                  then patched env update r0 else r0) (revenue_streams w))
    by (subst res; now rewrite Hrun).
  split; [subst res; now rewrite Hrun|].
  split; [exact Htab|].
  split.
  { rewrite Htab. apply in_map_iff. exists r. split; [|exact Hin].
    apply Z.eqb_eq in Hid. now rewrite Hid. }
  do 5 (split; [reflexivity|]).
  split; [subst r'; simpl; now destruct (up_monthly_revenue update)|].
  split; [subst r'; simpl; now destruct (up_potential_monthly update)|].
  split; [subst r'; simpl; now destruct (up_growth_rate update)|].
  split; [reflexivity|].
  split.
  - intros r0 Hin0 Hne. rewrite Htab. apply in_map_iff. exists r0. split; [|exact Hin0].
    apply Z.eqb_neq in Hne. now rewrite Hne.
  - intros g ->. repeat split.
Qed.

Lemma growth_only_is_supplied (g : float) : supplied_updates (growth_rate_only g) <> [].
Proof. discriminate. Qed.

(** The test's stream, updated with [{"growth_rate": 12.0}]. *)
Lemma update_growth_rate_only_witness :
  map (fun r => (RevenueStreams.monthly_revenue r, RevenueStreams.potential_monthly r,
                 RevenueStreams.growth_rate r, RevenueStreams.notes r))
    (revenue_streams
       (snd (update_revenue_stream utc_env 1 (growth_rate_only 12)
               (Some "demo-free-key") one_stream_world)))
  = [(500%float, 5000%float, 12%float, Some "AI memory and knowledge search API")].
Proof.
  pose proof (update_revenue_stream_modifies_only_supplied_fields
                utc_env 1 (growth_rate_only 12) (Some "demo-free-key") one_stream_world
                {| info_tier := "free"; info_name := Some "demo@example.com";
                   info_daily_limit := 2 |}
                (created_row utc_env brain_api_stream demo_world)
                eq_refl (growth_only_is_supplied 12) (or_introl eq_refl) eq_refl) as H.
  cbv zeta in H. destruct H as (_ & Htab & _).
  rewrite Htab. reflexivity.
Defined.

(* ===================================================================== *)
(** ** Prediction-market listing: properties *)
(* ===================================================================== *)

Lemma insert_desc_In (r x : PolymarketMarkets.row) (l : list PolymarketMarkets.row) :
  In x (insert_desc r l) <-> x = r \/ In x l.
Proof.
  induction l as [|y l IH]; simpl.
  - intuition.
  - destruct (volume_ltb _ _); simpl; rewrite ?IH; intuition.
Qed.

(** Ordering neither drops nor invents rows. *)
Lemma order_by_volume24h_desc_In (x : PolymarketMarkets.row)
    (l : list PolymarketMarkets.row) :
  In x (order_by_volume24h_desc l) <-> In x l.
Proof.
  unfold order_by_volume24h_desc. induction l as [|y l IH]; simpl; [tauto|].
  rewrite insert_desc_In, IH. intuition.
Qed.

Lemma firstn_subset {A : Type} (n : nat) (l : list A) (x : A) :
  In x (firstn n l) -> In x l.
Proof.
  revert l. induction n as [|n IH]; intros [|y l]; simpl; try tauto.
  intros [H|H]; [now left | right; now apply IH].
Qed.

Lemma sql_limit_subset {A : Type} (n : Z) (l : list A) (x : A) :
  In x (sql_limit n l) -> In x l.
Proof.
  unfold sql_limit. destruct (n <? 0); [tauto | apply firstn_subset].
Qed.

(** The statement both handlers send, and what every returned row
    satisfies. *)
Lemma select_markets_run (limit : Z) (category : option string) (active_only : bool)
    (w : World) :
  exists rows,
    select_markets limit category active_only w
      = (Ok rows, traced [EvExecute SELECT "polymarket_markets"] w) /\
    forall row, In row rows ->
      In row (polymarket_markets w) /\ market_where active_only category row = true.
Proof.
  eexists. split; [reflexivity|].
  intros row Hin. apply sql_limit_subset in Hin.
  apply (proj1 (order_by_volume24h_desc_In _ _)) in Hin.
  exact (proj1 (filter_In _ _ _) Hin).
Qed.

Lemma market_where_active (category : option string) (row : PolymarketMarkets.row) :
  market_where true category row = true -> PolymarketMarkets.active row = Some 1.
Proof.
  unfold market_where, active_is_1. intros H. apply andb_prop in H as [H _].
  destruct (PolymarketMarkets.active row) as [a|]; [|discriminate].
  apply Z.eqb_eq in H. now subst a.
Qed.

(** C9.  With [active_only = true], behind a gate that lets the request
    through, the listing of the main service returns a response, and
    every market in it is the image of a stored row whose [active] column
    is 1: no returned market has a stored flag of 0 (or NULL), whatever
    [limit] and [category] are.  The stand-alone listing service, which
    asks for no key, behaves the same. *)
Theorem active_only_listing_returns_only_active_rows
    (J : Type) (json_loads : string -> option J) (env : Env) (limit : Z)
    (category : option string) (x_api_key : option string) (w : World)
    (info : KeyInfo) :
  fst (get_auth env x_api_key w) = Ok info ->
  (exists resp,
     fst (get_polymarket_markets json_loads env limit category true x_api_key w)
       = Ok resp /\
     count resp = Z.of_nat (length (markets resp)) /\
     forall m, In m (markets resp) ->
       m_active m = Some 1 /\ m_active m <> Some 0 /\
       exists row, In row (polymarket_markets w) /\
                   PolymarketMarkets.active row = Some 1 /\
                   m = to_market json_loads row) /\
  (exists resp,
     fst (polymarket.get_markets json_loads env limit category true w) = Ok resp /\
     forall m, In m (polymarket.markets resp) ->
       m_active m = Some 1 /\ m_active m <> Some 0 /\
       exists row, In row (polymarket_markets w) /\
                   PolymarketMarkets.active row = Some 1 /\
                   m = to_market json_loads row).
Proof.
  intros Hauth.
  assert (Hrows : forall n w0 rows w1,
            polymarket_markets w0 = polymarket_markets w ->
            select_markets n category true w0 = (Ok rows, w1) ->
            forall m, In m (map (to_market json_loads) rows) ->
              m_active m = Some 1 /\ m_active m <> Some 0 /\
              exists row, In row (polymarket_markets w) /\
                          PolymarketMarkets.active row = Some 1 /\
                          m = to_market json_loads row).
  { intros n w0 rows w1 Hsame Hsel m Hm.
    destruct (select_markets_run n category true w0) as (rows0 & E & Hall).
    rewrite E in Hsel. injection Hsel as <- _.
    apply in_map_iff in Hm as (row & <- & Hrow).
    destruct (Hall row Hrow) as [Hin Hw]. apply market_where_active in Hw.
    rewrite Hsame in Hin. simpl. rewrite Hw.
    split; [reflexivity|]. split; [discriminate|]. now exists row. }
  split.
  - unfold get_polymarket_markets. unfold bind at 1.
    rewrite (get_auth_ok_run env x_api_key w info Hauth).
    unfold try_finally, get_db, conn_close, log_event, ret. unfold bind at 1 2.
    destruct (select_markets (Z.min limit 100) category true
                (with_db_trace (fun t => t ++ [EvConnect]) (traced gate_events w)))
      as [[rows|e] w1] eqn:E.
    + eexists. split; [reflexivity|]. split; [reflexivity|]. simpl.
      refine (Hrows _ _ _ _ _ E); reflexivity.
    + destruct (select_markets_run (Z.min limit 100) category true
                  (with_db_trace (fun t => t ++ [EvConnect]) (traced gate_events w)))
        as (rows0 & E' & _).
      rewrite E' in E. discriminate.
  - unfold polymarket.get_markets.
    unfold try_finally, conn_close, log_event, ret. unfold bind at 1 2.
    destruct (select_markets limit category true
                (with_db_trace (fun t => t ++ [EvConnect]) w))
      as [[rows|e] w1] eqn:E.
    + eexists. split; [reflexivity|]. simpl.
      refine (Hrows _ _ _ _ _ E); reflexivity.
    + destruct (select_markets_run limit category true
                  (with_db_trace (fun t => t ++ [EvConnect]) w))
        as (rows0 & E' & _).
      rewrite E' in E. discriminate.
Qed.

(** The closed market has the larger volume and would come first; it is
    not listed. *)
Lemma active_only_listing_witness :
  exists resp,
    fst (get_polymarket_markets keep_text utc_env 50 None true
           (Some "demo-free-key") markets_world) = Ok resp /\
    map m_id (markets resp) = ["0xaaa"] /\
    forall m, In m (markets resp) -> m_active m = Some 1.
Proof.
  destruct (active_only_listing_returns_only_active_rows
              string keep_text utc_env 50 None (Some "demo-free-key") markets_world
              {| info_tier := "free"; info_name := Some "demo@example.com";
                 info_daily_limit := 2 |} eq_refl)
    as [(resp & Hresp & _ & Hall) _].
  exists resp. split; [exact Hresp|]. split.
  - vm_compute in Hresp. injection Hresp as <-. reflexivity.
  - intros m Hm. exact (proj1 (Hall m Hm)).
Defined.

(* ===================================================================== *)
(** ** The gate over a day's traffic *)
(* ===================================================================== *)

(** Whatever the gate answers, the middleware appends one usage row for
    the key, stamped with the instant of the request; the key table is
    not touched. *)
Lemma gated_request_logs (env : Env) (key path : string) (w : World) :
  str_truthy key = true ->
  exists status,
    api_usage_log (snd (gated_request env key path w))
      = api_usage_log w
        ++ [{| UsageLog.api_key := key; UsageLog.endpoint := path;
               UsageLog.response_time_ms := duration_ms env;
               UsageLog.status_code := status;
               UsageLog.created_at := now env |}] /\
    api_keys (snd (gated_request env key path w)) = api_keys w.
Proof.
  intros Hk. unfold gated_request, log_api_usage. rewrite get_auth_run.
  simpl truthy. rewrite Hk. simpl negb. cbv iota zeta. simpl default.
  destruct (find_key_info key w) as [info|].
  - destruct (_ <? _); eexists; split; reflexivity.
  - eexists; split; reflexivity.
Qed.

Lemma usage_on_day_app (key : string) (day : Z) (w w' : World) (r : UsageLog.row) :
  api_usage_log w' = api_usage_log w ++ [r] ->
  UsageLog.api_key r = key ->
  sql_date (UsageLog.created_at r) = day ->
  usage_on_day key day w' = usage_on_day key day w + 1.
Proof.
  intros Hlog Hk Hd. unfold usage_on_day. rewrite Hlog, List.filter_app, length_app.
  simpl. unfold used_on at 2. rewrite Hk, Hd, String.eqb_refl, Z.eqb_refl. simpl. lia.
Qed.

Lemma serve_all_counts (envs : list Env) (key path : string) (day : Z) (w : World) :
  str_truthy key = true ->
  Forall (fun e => utc_today e = day) envs ->
  api_keys (serve_all envs key path w) = api_keys w /\
  usage_on_day key day (serve_all envs key path w)
    = usage_on_day key day w + Z.of_nat (length envs).
Proof.
  intros Hk Hall. revert w. induction Hall as [|env envs Hday Hall IH]; intros w; simpl.
  - split; [reflexivity | lia].
  - destruct (gated_request_logs env key path w Hk) as (status & Hlog & Hkeys).
    destruct (IH (snd (gated_request env key path w))) as [IHk IHu].
    split; [now rewrite IHk|].
    rewrite IHu, (usage_on_day_app key day w _ _ Hlog eq_refl Hday). lia.
Qed.

(** On a server whose local zone is UTC: once [L] requests of the current
    date have been served and logged for a key with daily limit [L], the
    next request of that date is answered with 429. *)
Lemma rate_limited_after_limit_requests
    (envs : list Env) (env : Env) (key path : string) (w : World) (info : KeyInfo) :
  str_truthy key = true ->
  find_key_info key w = Some info ->
  Forall (fun e => utc_today e = utc_today env) envs ->
  utcoffset env = 0 ->
  info_daily_limit info <= Z.of_nat (length envs) ->
  fst (get_auth env (Some key) (serve_all envs key path w))
    = Raise (HTTPException 429 "Rate limit exceeded").
Proof.
  intros Hk Hinfo Hall Hz Hlim.
  destruct (serve_all_counts envs key path (utc_today env) w Hk Hall) as [Hkeys Hcount].
  assert (Hinfo' : find_key_info key (serve_all envs key path w) = Some info)
    by (unfold find_key_info in *; now rewrite Hkeys).
  apply (proj1 (get_auth_utc_server env key _ info Hz Hk Hinfo')).
  rewrite Hcount. unfold usage_on_day. lia.
Qed.

Lemma rate_limited_after_limit_requests_witness :
  fst (get_auth utc_env (Some "demo-free-key")
         (serve_all [utc_env; utc_env] "demo-free-key" "/brain/status" demo_world))
    = Raise (HTTPException 429 "Rate limit exceeded").
Proof.
  assert (Hday : Forall (fun e => utc_today e = utc_today utc_env) [utc_env; utc_env])
    by (repeat constructor).
  apply (rate_limited_after_limit_requests [utc_env; utc_env] utc_env
           "demo-free-key" "/brain/status" demo_world
           {| info_tier := "free"; info_name := Some "demo@example.com";
              info_daily_limit := 2 |}
           eq_refl eq_refl Hday eq_refl).
  simpl. lia.
Defined.

(* ===================================================================== *)
(** ** Sanity checks of the embedding *)
(* ===================================================================== *)

Example email_re_accepts : EMAIL_RE_match "first.last+tag@sub-domain.example.org" = true.
Proof. reflexivity. Qed.

Example email_re_needs_two_letter_tld : EMAIL_RE_match "a@b.c" = false.
Proof. reflexivity. Qed.

Example email_re_one_at_sign : EMAIL_RE_match "a@@b.co" = false.
Proof. reflexivity. Qed.

(** The closing [$] lets one final newline through. *)
Example email_re_trailing_newline :
  EMAIL_RE_match (String.append "a@b.co" (String char_newline EmptyString)) = true.
Proof. reflexivity. Qed.

Example html_escape_markup :
  html_escape "<b>Tom & Co</b>" = "&lt;b&gt;Tom &amp; Co&lt;/b&gt;".
Proof. reflexivity. Qed.

Example first_registration_mints_a_key :
  fst (register utc_env "new@example.com" (Some "203.0.113.7") demo_world)
  = Ok {| reg_api_key := "sk_tokA"; reg_tier := "free"; reg_daily_limit := 100;
          reg_message := "Keep this key secure." |}.
Proof. reflexivity. Qed.

Example checkout_basic_tier :
  map (fun r => (ApiKeys.api_key r, ApiKeys.tier r, ApiKeys.daily_limit r))
    (api_keys (snd (stripe_webhook checkout_env "{}" (Some "t=1,v1=ab") empty_world)))
  = [("sk_tokA", "basic", 1000)].
Proof. reflexivity. Qed.

Example inactive_listing_keeps_closed_market :
  map m_id (markets (default {| markets := []; count := 0 |}
                       (match fst (get_polymarket_markets keep_text utc_env 50 None false
                                     (Some "demo-free-key") markets_world) with
                        | Ok resp => Some resp
                        | Raise _ => None
                        end)))
  = ["0xbbb"; "0xaaa"].
Proof. reflexivity. Qed.

(* ===================================================================== *)
(** ** The registration window: further properties *)
(* ===================================================================== *)

Lemma check_registration_rate_refuses (env : Env) (ip : string) (w : World) :
  (MAX_REGISTRATIONS_PER_IP <= length (recent_attempts env ip w))%nat ->
  check_registration_rate env ip w = (Ok false, slot_refused env ip w).
Proof.
  intros H. unfold check_registration_rate.
  apply Nat.leb_le in H. now rewrite H.
Qed.

Lemma recent_attempts_length (env : Env) (ip : string) (w : World) :
  (length (recent_attempts env ip w)
   <= length (default [] (_registration_attempts w !! ip)))%nat.
Proof. unfold recent_attempts. apply List.filter_length_le. Qed.

Lemma recent_attempts_in_window (env : Env) (ip : string) (w : World) (t : Z) :
  In t (recent_attempts env ip w) -> now env - t < REGISTRATION_WINDOW_SECONDS.
Proof.
  unfold recent_attempts. intros H. apply filter_In in H as [_ H].
  now apply Z.ltb_lt in H.
Qed.

(** X1.  The rate check keeps the attempt table bounded: if no address has
    more than three timestamps on record before the call, none has
    afterwards, whether the call grants or refuses; and every timestamp
    left on record for the calling address lies inside the one-hour
    window. *)
Theorem check_registration_rate_keeps_window_bounded
    (env : Env) (ip : string) (w : World) :
  window_bounded w ->
  window_bounded (snd (check_registration_rate env ip w)) /\
  (forall t,
     In t (default [] (_registration_attempts (snd (check_registration_rate env ip w)) !! ip)) ->
     now env - t < REGISTRATION_WINDOW_SECONDS).
Proof.
  intros Hb.
  assert (Hold : (length (default [] (_registration_attempts w !! ip))
                  <= MAX_REGISTRATIONS_PER_IP)%nat).
  { destruct (_registration_attempts w !! ip) as [l|] eqn:E; simpl.
    - exact (Hb ip l E).
    - unfold MAX_REGISTRATIONS_PER_IP. auto with arith. }
  pose proof (recent_attempts_length env ip w) as Hlen.
  unfold check_registration_rate.
  destruct (MAX_REGISTRATIONS_PER_IP <=? length (recent_attempts env ip w))%nat eqn:E;
    unfold window_bounded; simpl; split.
  - intros ip' l. destruct (decide (ip = ip')) as [<-|Hne].
    + rewrite lookup_insert_eq. intros [= <-]. lia.
    + rewrite lookup_insert_ne by exact Hne. apply Hb.
  - rewrite lookup_insert_eq. simpl. apply recent_attempts_in_window.
  - apply Nat.leb_gt in E. intros ip' l. destruct (decide (ip = ip')) as [<-|Hne].
    + rewrite lookup_insert_eq. intros [= <-]. rewrite length_app. simpl.
      unfold MAX_REGISTRATIONS_PER_IP in *. lia.
    + rewrite lookup_insert_ne by exact Hne. apply Hb.
  - rewrite lookup_insert_eq. simpl. intros t Ht. apply in_app_iff in Ht as [Ht|Ht].
    + now apply recent_attempts_in_window in Ht.
    + destruct Ht as [<-|[]]. rewrite Z.sub_diag. reflexivity.
Qed.

Lemma capped_world_bounded : window_bounded capped_world.
Proof.
  intros ip l. unfold capped_world; simpl.
  destruct (decide ("203.0.113.7" = ip)) as [<-|Hne].
  - rewrite lookup_insert_eq. intros [= <-]. simpl. unfold MAX_REGISTRATIONS_PER_IP. lia.
  - rewrite lookup_insert_ne by exact Hne. rewrite lookup_empty. discriminate.
Qed.

Lemma check_registration_rate_bounded_witness :
  window_bounded (snd (check_registration_rate utc_env "203.0.113.7" capped_world)).
Proof.
  exact (proj1 (check_registration_rate_keeps_window_bounded
                  utc_env "203.0.113.7" capped_world capped_world_bounded)).
Defined.

(** X2.  An address that already has three attempts inside the window is
    refused, and the refused attempt is not put on record: the attempts
    inside the window are exactly those of before, so hammering the
    endpoint does not push the end of the lock-out further away.  No
    table, no database statement and no token is involved. *)
Theorem check_registration_rate_refusal_is_not_recorded
    (env : Env) (ip : string) (w : World) :
  (MAX_REGISTRATIONS_PER_IP <= length (recent_attempts env ip w))%nat ->
  let w' := snd (check_registration_rate env ip w) in
  fst (check_registration_rate env ip w) = Ok false /\
  _registration_attempts w' !! ip = Some (recent_attempts env ip w) /\
  recent_attempts env ip w' = recent_attempts env ip w /\
  api_keys w' = api_keys w /\ tokens_minted w' = tokens_minted w /\
  db_trace w' = db_trace w.
Proof.
  intros H w'. subst w'. rewrite (check_registration_rate_refuses env ip w H). simpl.
  split; [reflexivity|]. split; [apply lookup_insert_eq|].
  split; [|repeat split].
  unfold recent_attempts at 1. simpl. rewrite lookup_insert_eq. simpl.
  unfold recent_attempts. apply filter_filter_same.
Qed.

Lemma check_registration_rate_refusal_witness :
  fst (check_registration_rate utc_env "203.0.113.7" capped_world) = Ok false /\
  recent_attempts utc_env "203.0.113.7"
    (snd (check_registration_rate utc_env "203.0.113.7" capped_world))
  = [now utc_env - 30; now utc_env - 20; now utc_env - 10].
Proof.
  assert (Hcap : (MAX_REGISTRATIONS_PER_IP
                  <= length (recent_attempts utc_env "203.0.113.7" capped_world))%nat).
  { vm_compute. repeat constructor. }
  pose proof (check_registration_rate_refusal_is_not_recorded
                utc_env "203.0.113.7" capped_world Hcap) as H.
  cbv zeta in H. destruct H as (Hr & _ & Hsame & _).
  split; [exact Hr|]. rewrite Hsame. reflexivity.
Defined.

(** X3.  The window slides: once every recorded attempt of an address is
    an hour old or older, the next check grants a slot, drops the old
    timestamps and leaves the new one as the only entry. *)
Theorem check_registration_rate_window_expires
    (env : Env) (ip : string) (w : World) :
  (forall t, In t (default [] (_registration_attempts w !! ip)) ->
     REGISTRATION_WINDOW_SECONDS <= now env - t) ->
  fst (check_registration_rate env ip w) = Ok true /\
  _registration_attempts (snd (check_registration_rate env ip w)) !! ip
    = Some [now env].
Proof.
  intros Hold.
  assert (Hnone : recent_attempts env ip w = []).
  { unfold recent_attempts.
    induction (default [] (_registration_attempts w !! ip)) as [|t l IH]; [reflexivity|].
    simpl. assert (Ht := Hold t (or_introl eq_refl)).
    apply Z.ltb_ge in Ht. rewrite Ht. apply IH. intros t' Ht'. apply Hold. now right. }
  unfold check_registration_rate. rewrite Hnone. simpl.
  split; [reflexivity | apply lookup_insert_eq].
Qed.

Lemma check_registration_rate_expiry_witness :
  fst (check_registration_rate hour_later_env "203.0.113.7" capped_world) = Ok true /\
  _registration_attempts
    (snd (check_registration_rate hour_later_env "203.0.113.7" capped_world))
    !! "203.0.113.7"
  = Some [now hour_later_env].
Proof.
  apply (check_registration_rate_window_expires hour_later_env "203.0.113.7" capped_world).
  intros t Ht.
  change (In t [now utc_env - 30; now utc_env - 20; now utc_env - 10]) in Ht.
  simpl in Ht. destruct Ht as [<-|[<-|[<-|[]]]]; vm_compute; discriminate.
Defined.

(** X4.  A registration request only ever touches the attempt record of
    the address it comes from: the record of every other address is what
    it was, whatever the outcome of the request. *)
Theorem register_leaves_other_addresses_alone
    (env : Env) (email : string) (client : option string) (w : World) (other : string) :
  other <> client_host client ->
  _registration_attempts (snd (register env email client w)) !! other
  = _registration_attempts w !! other.
Proof.
  intros Hne. rewrite register_run.
  destruct (negb (EMAIL_RE_match email)); [reflexivity|]. cbv zeta.
  destruct (MAX_REGISTRATIONS_PER_IP <=? _)%nat.
  - simpl. now rewrite lookup_insert_ne by (intros E; now apply Hne).
  - destruct (fetchone _); [|destruct (key_taken _ w)]; simpl;
      now rewrite lookup_insert_ne by (intros E; now apply Hne).
Qed.

Lemma register_other_addresses_witness :
  _registration_attempts
    (snd (register utc_env "new@example.com" (Some "198.51.100.9") capped_world))
    !! "203.0.113.7"
  = _registration_attempts capped_world !! "203.0.113.7".
Proof.
  apply (register_leaves_other_addresses_alone
           utc_env "new@example.com" (Some "198.51.100.9") capped_world "203.0.113.7").
  discriminate.
Defined.

(* ===================================================================== *)
(** ** Registration and the gate together *)
(* ===================================================================== *)

(** What a successful registration has gone through and left behind. *)
Lemma register_ok_inv (env : Env) (email : string) (client : option string)
    (w w' : World) (resp : RegisterResponse) :
  register env email client w = (Ok resp, w') ->
  EMAIL_RE_match email = true /\
  key_taken (minted_key env (tokens_minted w)) w = false /\
  resp = {| reg_api_key := minted_key env (tokens_minted w); reg_tier := "free";
            reg_daily_limit := 100; reg_message := "Keep this key secure." |} /\
  api_keys w' =
    api_keys w
    ++ [new_key_row (minted_key env (tokens_minted w)) "free" (Some email) 100 3000].
Proof.
  rewrite register_run.
  destruct (EMAIL_RE_match email); simpl negb; cbv iota; [|discriminate]. cbv zeta.
  destruct (MAX_REGISTRATIONS_PER_IP <=? _)%nat; [discriminate|].
  destruct (fetchone _); [discriminate|].
  destruct (key_taken _ w); [discriminate|].
  intros [= <- <-]. repeat split.
Qed.

Lemma key_not_taken_no_row (key : string) (rows : list ApiKeys.row) :
  existsb (fun r => String.eqb (ApiKeys.api_key r) key) rows = false ->
  List.filter (key_is_active key) rows = [].
Proof.
  induction rows as [|r rows IH]; simpl; [reflexivity|].
  intros H. apply orb_false_elim in H as [Hr Hrest].
  unfold key_is_active at 1. rewrite Hr. simpl. now apply IH.
Qed.

(** A row appended under a token no stored row carries is the row the
    gate finds for that token. *)
Lemma find_key_info_fresh (key tier : string) (email : option string)
    (daily monthly : Z) (w w2 : World) :
  key_taken key w = false ->
  api_keys w2 = api_keys w ++ [new_key_row key tier email daily monthly] ->
  find_key_info key w2
  = Some {| info_tier := tier; info_name := email; info_daily_limit := daily |}.
Proof.
  intros Hfree Hkeys. unfold find_key_info. rewrite Hkeys, List.filter_app.
  rewrite (key_not_taken_no_row key (api_keys w) Hfree). simpl.
  unfold key_is_active. simpl. rewrite String.eqb_refl. reflexivity.
Qed.

(** X5.  Register, then authenticate: the key a successful registration
    hands out is accepted by the gate in every later state that still has
    the key table the registration left, as long as fewer than 100
    requests of the day are logged under it; the gate reports the free
    tier, the registered email and the limit 100. *)
Theorem registered_key_authenticates
    (env env2 : Env) (email : string) (client : option string) (w w' w2 : World)
    (resp : RegisterResponse) :
  register env email client w = (Ok resp, w') ->
  api_keys w2 = api_keys w' ->
  usage_on_day (reg_api_key resp) (strftime_today env2) w2 < 100 ->
  fst (get_auth env2 (Some (reg_api_key resp)) w2)
  = Ok {| info_tier := "free"; info_name := Some email; info_daily_limit := 100 |}.
Proof.
  intros Hreg Hkeys Husage.
  destruct (register_ok_inv env email client w w' resp Hreg) as (_ & Hfree & -> & Hrows).
  simpl in *. rewrite <- Hkeys in Hrows.
  assert (Htruthy : str_truthy (minted_key env (tokens_minted w)) = true) by reflexivity.
  rewrite (get_auth_active_key env2 _ w2 _ Htruthy
             (find_key_info_fresh _ "free" (Some email) 100 3000 w w2 Hfree Hrows)).
  simpl. apply Z.ltb_lt in Husage. now rewrite Husage.
Qed.

Lemma registered_key_authenticates_witness :
  fst (get_auth hour_later_env (Some "sk_tokA")
         (snd (register utc_env "new@example.com" (Some "203.0.113.7") demo_world)))
  = Ok {| info_tier := "free"; info_name := Some "new@example.com";
          info_daily_limit := 100 |}.
Proof.
  apply (registered_key_authenticates
           utc_env hour_later_env "new@example.com" (Some "203.0.113.7") demo_world
           (snd (register utc_env "new@example.com" (Some "203.0.113.7") demo_world))
           (snd (register utc_env "new@example.com" (Some "203.0.113.7") demo_world))
           {| reg_api_key := "sk_tokA"; reg_tier := "free"; reg_daily_limit := 100;
              reg_message := "Keep this key secure." |});
    reflexivity.
Defined.

(** X6.  Register twice: after a successful registration, a second
    registration with the same email, from any address that is still
    below the hourly cap and at any time, is answered with 409 Conflict
    and leaves the key table as the first registration left it. *)
Theorem register_twice_conflicts
    (env env2 : Env) (email : string) (client client2 : option string) (w w' : World)
    (resp : RegisterResponse) :
  register env email client w = (Ok resp, w') ->
  (length (recent_attempts env2 (client_host client2) w') < MAX_REGISTRATIONS_PER_IP)%nat ->
  fst (register env2 email client2 w') = Raise conflict_409 /\
  api_keys (snd (register env2 email client2 w')) = api_keys w'.
Proof.
  intros Hreg Hcap.
  destruct (register_ok_inv env email client w w' resp Hreg) as (Hm & _ & _ & Hrows).
  assert (Hact : has_active_key email w').
  { exists (new_key_row (minted_key env (tokens_minted w)) "free" (Some email) 100 3000).
    split.
    - rewrite Hrows. apply in_or_app. right. now left.
    - unfold active_for_email. simpl. now rewrite String.eqb_refl. }
  destruct (has_active_key_fetchone email w' Hact) as [row Hrow].
  apply Nat.leb_gt in Hcap.
  rewrite register_run, Hm. simpl negb. cbv iota zeta. rewrite Hcap, Hrow.
  split; reflexivity.
Qed.

Lemma register_twice_witness :
  fst (register hour_later_env "new@example.com" (Some "203.0.113.7")
         (snd (register utc_env "new@example.com" (Some "203.0.113.7") demo_world)))
  = Raise conflict_409.
Proof.
  apply (register_twice_conflicts
           utc_env hour_later_env "new@example.com" (Some "203.0.113.7")
           (Some "203.0.113.7") demo_world
           (snd (register utc_env "new@example.com" (Some "203.0.113.7") demo_world))
           {| reg_api_key := "sk_tokA"; reg_tier := "free"; reg_daily_limit := 100;
              reg_message := "Keep this key secure." |}).
  - reflexivity.
  - vm_compute. repeat constructor.
Defined.

(* ===================================================================== *)
(** ** The payment webhook: further properties *)
(* ===================================================================== *)

(** The dashboard branch of a checkout event. *)
Lemma checkout_session_completed_dashboard (env : Env) (session : StripeObject)
    (w : World) :
  opt_str_eqb (session_price_id session) (Some (DASHBOARD_PRICE env)) = true ->
  checkout_session_completed env session w =
  (Ok "dashboard_subscription_created",
   traced [EvConnect; EvExecute INSERT "dashboard_subscriptions"; EvCommit; EvClose]
     (with_dashboard_subscriptions
        (fun t =>
           t ++ [{| DashboardSubscriptions.customer_email := customer_email session;
                    DashboardSubscriptions.price_id := session_price_id session;
                    DashboardSubscriptions.stripe_session_id := object_id session;
                    DashboardSubscriptions.status := "active" |}]) w)).
Proof.
  intros Hd. unfold checkout_session_completed. rewrite Hd.
  unfold try_finally, get_db, conn_close, conn_commit, insert_dashboard_subscription,
    log_event, ret, bind; simpl.
  same_trace.
Qed.

(** X7.  Whatever the request, the main webhook handler adds at most one
    row to the store: one key, or one dashboard subscription, or nothing.
    Rows already stored are neither changed nor removed, and the usage
    ledger, the revenue streams, the markets, the payments and the
    registration windows are left alone. *)
Theorem stripe_webhook_adds_at_most_one_row
    (env : Env) (payload : string) (sig_header : option string) (w : World) :
  exists keys subs,
    api_keys (snd (stripe_webhook env payload sig_header w)) = api_keys w ++ keys /\
    dashboard_subscriptions (snd (stripe_webhook env payload sig_header w))
      = dashboard_subscriptions w ++ subs /\
    (length keys + length subs <= 1)%nat /\
    api_usage_log (snd (stripe_webhook env payload sig_header w)) = api_usage_log w /\
    revenue_streams (snd (stripe_webhook env payload sig_header w)) = revenue_streams w /\
    polymarket_markets (snd (stripe_webhook env payload sig_header w))
      = polymarket_markets w /\
    payments (snd (stripe_webhook env payload sig_header w)) = payments w /\
    _registration_attempts (snd (stripe_webhook env payload sig_header w))
      = _registration_attempts w.
Proof.
  assert (Hnone : forall r, exists keys subs,
            api_keys (snd (r, w)) = api_keys w ++ keys /\
            dashboard_subscriptions (snd (r : result string, w))
              = dashboard_subscriptions w ++ subs /\
            (length keys + length subs <= 1)%nat /\
            api_usage_log (snd (r, w)) = api_usage_log w /\
            revenue_streams (snd (r, w)) = revenue_streams w /\
            polymarket_markets (snd (r, w)) = polymarket_markets w /\
            payments (snd (r, w)) = payments w /\
            _registration_attempts (snd (r, w)) = _registration_attempts w).
  { intros r. exists [], []. simpl. rewrite !app_nil_r. repeat split. lia. }
  unfold stripe_webhook.
  destruct (negb (truthy (STRIPE_SECRET_KEY env)) || negb (truthy (STRIPE_WEBHOOK_SECRET env)));
    [apply Hnone|].
  destruct (negb (truthy sig_header)); [apply Hnone|].
  destruct (construct_event _ _ _ _) as [event| |]; [|apply Hnone|apply Hnone].
  destruct (String.eqb (event_type event) "checkout.session.completed"); [|apply Hnone].
  destruct (opt_str_eqb (session_price_id (data_object event)) (Some (DASHBOARD_PRICE env)))
    eqn:Hd.
  - rewrite (checkout_session_completed_dashboard env _ w Hd).
    eexists [], [_]. simpl. rewrite app_nil_r. repeat split. lia.
  - rewrite (checkout_session_completed_run env _ w Hd). cbv zeta.
    destruct (key_taken _ w); [destruct (key_taken _ w)|].
    + exists [], []. simpl. rewrite !app_nil_r. repeat split. lia.
    + eexists [_], []. simpl. rewrite app_nil_r. repeat split. lia.
    + eexists [_], []. simpl. rewrite app_nil_r. repeat split. lia.
Qed.

(** X8.  A verified checkout event whose price is the dashboard price
    records an active dashboard subscription for the customer (email,
    price and checkout session id) and answers
    "dashboard_subscription_created"; no API key is minted and no token is
    drawn for it. *)
Theorem stripe_webhook_dashboard_checkout_records_subscription
    (env : Env) (payload : string) (sig_header : option string) (w : World)
    (event : StripeEvent) :
  truthy (STRIPE_SECRET_KEY env) = true ->
  truthy (STRIPE_WEBHOOK_SECRET env) = true ->
  truthy sig_header = true ->
  construct_event env payload (default EmptyString sig_header)
    (default EmptyString (STRIPE_WEBHOOK_SECRET env)) = Constructed event ->
  event_type event = "checkout.session.completed" ->
  session_price_id (data_object event) = Some (DASHBOARD_PRICE env) ->
  let w' := snd (stripe_webhook env payload sig_header w) in
  fst (stripe_webhook env payload sig_header w) = Ok "dashboard_subscription_created" /\
  dashboard_subscriptions w' =
    dashboard_subscriptions w
    ++ [{| DashboardSubscriptions.customer_email := customer_email (data_object event);
           DashboardSubscriptions.price_id := Some (DASHBOARD_PRICE env);
           DashboardSubscriptions.stripe_session_id := object_id (data_object event);
           DashboardSubscriptions.status := "active" |}] /\
  api_keys w' = api_keys w /\
  tokens_minted w' = tokens_minted w.
Proof.
  intros H1 H2 H3 H4 H5 H6 w'.
  assert (Hd : opt_str_eqb (session_price_id (data_object event))
                 (Some (DASHBOARD_PRICE env)) = true)
    by (rewrite H6; simpl; apply String.eqb_refl).
  subst w'. rewrite (stripe_webhook_verified env payload sig_header w event H1 H2 H3 H4).
  rewrite H5. simpl String.eqb. cbv iota.
  rewrite (checkout_session_completed_dashboard env _ w Hd). simpl. rewrite H6.
  repeat split.
Qed.

(** X9.  A verified event of any type other than
    [checkout.session.completed] is acknowledged with "received" and has
    no effect at all: no connection is opened and nothing is stored. *)
Theorem stripe_webhook_other_events_acknowledged_without_action
    (env : Env) (payload : string) (sig_header : option string) (w : World)
    (event : StripeEvent) :
  truthy (STRIPE_SECRET_KEY env) = true ->
  truthy (STRIPE_WEBHOOK_SECRET env) = true ->
  truthy sig_header = true ->
  construct_event env payload (default EmptyString sig_header)
    (default EmptyString (STRIPE_WEBHOOK_SECRET env)) = Constructed event ->
  event_type event <> "checkout.session.completed" ->
  stripe_webhook env payload sig_header w = (Ok "received", w).
Proof.
  intros H1 H2 H3 H4 H5.
  rewrite (stripe_webhook_verified env payload sig_header w event H1 H2 H3 H4).
  apply String.eqb_neq in H5. now rewrite H5.
Qed.




Lemma stripe_webhook_dashboard_witness :
  fst (stripe_webhook (env_delivering dashboard_event) "{}" (Some "t=1,v1=ab") demo_world)
    = Ok "dashboard_subscription_created" /\
  api_keys (snd (stripe_webhook (env_delivering dashboard_event) "{}" (Some "t=1,v1=ab")
                   demo_world))
    = api_keys demo_world.
Proof.
  pose proof (stripe_webhook_dashboard_checkout_records_subscription
                (env_delivering dashboard_event) "{}" (Some "t=1,v1=ab") demo_world
                dashboard_event eq_refl eq_refl eq_refl eq_refl eq_refl eq_refl) as H.
  cbv zeta in H. destruct H as (Hr & _ & Hk & _).
  split; [exact Hr | exact Hk].
Defined.

Lemma stripe_webhook_other_events_witness :
  stripe_webhook (env_delivering invoice_event) "{}" (Some "t=1,v1=ab") demo_world
  = (Ok "received", demo_world).
Proof.
  apply (stripe_webhook_other_events_acknowledged_without_action
           (env_delivering invoice_event) "{}" (Some "t=1,v1=ab") demo_world
           invoice_event eq_refl eq_refl eq_refl eq_refl).
  discriminate.
Defined.

(* ===================================================================== *)
(** ** The payment microservice: properties *)
(* ===================================================================== *)

Lemma fetchone_filter_map {R : Type} (p : R -> bool) (g : R -> R) (l : list R) :
  (forall r, p (g r) = p r) ->
  fetchone (List.filter p (map g l)) = option_map g (fetchone (List.filter p l)).
Proof.
  intros Hp. induction l as [|r l IH]; simpl; [reflexivity|].
  rewrite Hp. destruct (p r); simpl; [reflexivity | exact IH].
Qed.

Lemma mark_payment_run (env : Env) (status : string) (data : StripeObject) (w : World) :
  stripe_api.mark_payment env status data w =
  (Ok tt,
   match object_id data with
   | Some pid =>
       traced [EvConnect; EvExecute UPDATE "payments"; EvCommit; EvClose]
         (with_payments (map (marked env status pid)) w)
   | None => traced [EvConnect; EvClose] w
   end).
Proof.
  unfold stripe_api.mark_payment.
  destruct (object_id data) as [pid|];
    unfold try_finally, conn_close, conn_commit, log_event, ret, bind; simpl; same_trace.
Qed.

Lemma marked_same_payment (env : Env) (status pid : string) (r : Payments.row) :
  same_payment r (marked env status pid r) /\
  (Payments.payment_intent_id r <> pid -> marked env status pid r = r).
Proof.
  unfold marked, same_payment.
  destruct (String.eqb_spec (Payments.payment_intent_id r) pid); simpl;
    repeat split; congruence.
Qed.

(** X11.  Once the signature is verified, the webhook of the payment
    microservice always acknowledges the event, whatever its type and
    content.  It never adds or removes a payment: the table afterwards is
    the old one row by row, each row with its id, amount and currency, and
    a row whose id is not the one the event names is untouched.  No other
    table changes. *)
Theorem stripe_api_webhook_always_acknowledges
    (env : Env) (payload : string) (stripe_signature : option string) (w : World)
    (event : StripeEvent) :
  truthy stripe_signature = true ->
  construct_event env payload (default EmptyString stripe_signature)
    (stripe_api.STRIPE_WEBHOOK_SECRET env) = Constructed event ->
  let w' := snd (stripe_api.stripe_webhook env payload stripe_signature w) in
  fst (stripe_api.stripe_webhook env payload stripe_signature w) = Ok true /\
  (exists f,
     payments w' = map f (payments w) /\
     forall r, same_payment r (f r) /\
               (Some (Payments.payment_intent_id r) <> object_id (data_object event) ->
                f r = r)) /\
  api_keys w' = api_keys w /\
  dashboard_subscriptions w' = dashboard_subscriptions w /\
  api_usage_log w' = api_usage_log w /\
  revenue_streams w' = revenue_streams w.
Proof.
  intros Hs Hc w'. subst w'. unfold stripe_api.stripe_webhook. rewrite Hs, Hc.
  cbn [negb]. cbv iota zeta.
  assert (Hid : exists f : Payments.row -> Payments.row,
            payments w = map f (payments w) /\
            forall r, same_payment r (f r) /\
                      (Some (Payments.payment_intent_id r) <> object_id (data_object event) ->
                       f r = r)).
  { exists (fun r => r). split; [now rewrite map_id|]. intros r. repeat split. }
  assert (Hmark : forall status,
            let w1 := snd (stripe_api.mark_payment env status (data_object event) w) in
            (exists f, payments w1 = map f (payments w) /\
               forall r, same_payment r (f r) /\
                         (Some (Payments.payment_intent_id r)
                          <> object_id (data_object event) -> f r = r)) /\
            api_keys w1 = api_keys w /\
            dashboard_subscriptions w1 = dashboard_subscriptions w /\
            api_usage_log w1 = api_usage_log w /\
            revenue_streams w1 = revenue_streams w).
  { intros status. cbv zeta. rewrite mark_payment_run. simpl.
    destruct (object_id (data_object event)) as [pid|]; simpl.
    - split; [|repeat split]. exists (marked env status pid). split; [reflexivity|].
      intros r. destruct (marked_same_payment env status pid r) as [Hsame Hother].
      split; [exact Hsame|]. intros Hne. apply Hother. congruence.
    - split; [exact Hid | repeat split]. }
  unfold bind. cbv beta.
  destruct (String.eqb (event_type event) "payment_intent.succeeded").
  - specialize (Hmark "succeeded"). cbv zeta in Hmark.
    rewrite mark_payment_run in Hmark. rewrite mark_payment_run.
    split; [reflexivity | exact Hmark].
  - destruct (String.eqb (event_type event) "payment_intent.payment_failed").
    + specialize (Hmark "failed"). cbv zeta in Hmark.
      rewrite mark_payment_run in Hmark. rewrite mark_payment_run.
      split; [reflexivity | exact Hmark].
    + unfold ret. simpl. split; [reflexivity|]. split; [exact Hid | repeat split].
Qed.

Lemma stripe_api_webhook_acknowledges_witness :
  fst (stripe_api.stripe_webhook (env_delivering invoice_event) "{}"
         (Some "t=1,v1=ab") payments_world) = Ok true /\
  payments (snd (stripe_api.stripe_webhook (env_delivering payment_succeeded_event) "{}"
                   (Some "t=1,v1=ab") payments_world))
  = [marked (env_delivering payment_succeeded_event) "succeeded" "pi_1"
       (pending_payment "pi_1");
     pending_payment "pi_2"].
Proof.
  split.
  - exact (proj1 (stripe_api_webhook_always_acknowledges
                    (env_delivering invoice_event) "{}" (Some "t=1,v1=ab")
                    payments_world invoice_event eq_refl eq_refl)).
  - reflexivity.
Defined.

Lemma get_payment_status_run (payment_intent_id : string) (w : World) :
  get_payment_status payment_intent_id w =
  (match fetchone (List.filter
                     (fun r => String.eqb (Payments.payment_intent_id r) payment_intent_id)
                     (payments w)) with
   | Some row => Ok row
   | None => Raise (HTTPException 404 "Payment not found")
   end,
   traced [EvConnect; EvExecute SELECT "payments"; EvClose] w).
Proof.
  unfold get_payment_status, try_finally, select, conn_close, log_event, ret, raise, bind;
    simpl.
  destruct (fetchone _); simpl; same_trace.
Qed.

(** X12.  Webhook, then status lookup: after a verified
    [payment_intent.succeeded] (or [payment_intent.payment_failed]) event
    for a payment that is on record, the status endpoint returns that
    payment with status "succeeded" (or "failed"), stamped with the time
    of the event, and with the amount and currency it had. *)
Theorem payment_status_follows_webhook_event
    (env : Env) (payload : string) (stripe_signature : option string) (w : World)
    (event : StripeEvent) (pid status : string) (r : Payments.row) :
  truthy stripe_signature = true ->
  construct_event env payload (default EmptyString stripe_signature)
    (stripe_api.STRIPE_WEBHOOK_SECRET env) = Constructed event ->
  (event_type event = "payment_intent.succeeded" /\ status = "succeeded") \/
  (event_type event = "payment_intent.payment_failed" /\ status = "failed") ->
  object_id (data_object event) = Some pid ->
  fetchone (List.filter (fun r0 => String.eqb (Payments.payment_intent_id r0) pid)
              (payments w)) = Some r ->
  fst (get_payment_status pid
         (snd (stripe_api.stripe_webhook env payload stripe_signature w)))
  = Ok {| Payments.payment_intent_id := pid;
          Payments.amount_pence := Payments.amount_pence r;
          Payments.currency := Payments.currency r;
          Payments.status := status;
          Payments.updated_at := now env |}.
Proof.
  intros Hs Hc Hty Hid Hrow.
  assert (Hr : Payments.payment_intent_id r = pid).
  { unfold fetchone in Hrow.
    destruct (List.filter _ (payments w)) as [|r0 l] eqn:E; [discriminate|].
    injection Hrow as ->.
    assert (Hin : In r (List.filter
                          (fun r0 => String.eqb (Payments.payment_intent_id r0) pid)
                          (payments w))) by (rewrite E; now left).
    apply filter_In in Hin as [_ Hin]. now apply String.eqb_eq in Hin. }
  assert (Hpay : payments (snd (stripe_api.stripe_webhook env payload stripe_signature w))
                 = map (marked env status pid) (payments w)).
  { unfold stripe_api.stripe_webhook. rewrite Hs, Hc. cbn [negb]. cbv iota zeta.
    unfold bind. cbv beta.
    destruct Hty as [[Hty ->]|[Hty ->]]; rewrite Hty;
      cbn [String.eqb Ascii.eqb Bool.eqb]; rewrite mark_payment_run, Hid; reflexivity. }
  rewrite get_payment_status_run. simpl fst. rewrite Hpay.
  rewrite fetchone_filter_map.
  - rewrite Hrow. simpl. unfold marked. rewrite Hr, String.eqb_refl. reflexivity.
  - intros r0. unfold marked.
    destruct (String.eqb (Payments.payment_intent_id r0) pid) eqn:E; simpl; now rewrite ?E.
Qed.

Lemma payment_status_follows_webhook_witness :
  fst (get_payment_status "pi_1"
         (snd (stripe_api.stripe_webhook (env_delivering payment_succeeded_event) "{}"
                 (Some "t=1,v1=ab") payments_world)))
  = Ok {| Payments.payment_intent_id := "pi_1"; Payments.amount_pence := 1000;
          Payments.currency := "gbp"; Payments.status := "succeeded";
          Payments.updated_at := 19875 * 86400 + 43200 |}.
Proof.
  exact (payment_status_follows_webhook_event
           (env_delivering payment_succeeded_event) "{}" (Some "t=1,v1=ab") payments_world
           payment_succeeded_event "pi_1" "succeeded" (pending_payment "pi_1")
           eq_refl eq_refl (or_introl (conj eq_refl eq_refl)) eq_refl eq_refl).
Defined.

(* ===================================================================== *)
(** ** The revenue ledger: further properties *)
(* ===================================================================== *)

Lemma get_revenue_stream_run (env : Env) (stream_id : Z) (x_api_key : option string)
    (w : World) (info : KeyInfo) :
  fst (get_auth env x_api_key w) = Ok info ->
  get_revenue_stream env stream_id x_api_key w =
  (match fetchone (List.filter (fun r => Z.eqb (RevenueStreams.id r) stream_id)
                     (revenue_streams w)) with
   | Some stream => Ok stream
   | None => Raise (HTTPException 404 "Revenue stream not found")
   end,
   traced (gate_events ++ [EvConnect; EvExecute SELECT "revenue_streams"; EvClose]) w).
Proof.
  intros H. unfold get_revenue_stream. unfold bind at 1.
  rewrite (get_auth_ok_run env x_api_key w info H).
  unfold try_finally, select, get_db, conn_close, log_event, ret, raise, bind; simpl.
  destruct (fetchone _); simpl; same_trace.
Qed.

Lemma create_revenue_stream_run (env : Env) (stream : RevenueStream)
    (x_api_key : option string) (w : World) (info : KeyInfo) :
  fst (get_auth env x_api_key w) = Ok info ->
  create_revenue_stream env stream x_api_key w =
  if negb (str_in (rs_category stream) VALID_CATEGORIES) then
    (Raise (HTTPException 400 "Invalid category"), traced gate_events w)
  else
    (Ok {| stream_id := next_id (revenue_streams w);
           create_message := "Revenue stream created successfully" |},
     traced (gate_events ++ [EvConnect; EvExecute INSERT "revenue_streams";
                             EvCommit; EvClose])
       (with_revenue_streams (fun t => t ++ [created_row env stream w]) w)).
Proof.
  intros H. unfold create_revenue_stream. unfold bind at 1.
  rewrite (get_auth_ok_run env x_api_key w info H).
  destruct (negb (str_in _ _)); [reflexivity|].
  unfold try_finally, get_db, conn_close, conn_commit, log_event, ret, bind; simpl.
  unfold created_row. same_trace.
Qed.

Lemma ids_below_next_id (rows : list RevenueStreams.row) (r : RevenueStreams.row) :
  In r rows -> RevenueStreams.id r < next_id rows.
Proof.
  unfold next_id. induction rows as [|x rows IH]; simpl; [tauto|].
  intros [<-|Hin]; [lia|]. specialize (IH Hin). lia.
Qed.

Lemma no_stream_with_next_id (rows : list RevenueStreams.row) :
  List.filter (fun r => Z.eqb (RevenueStreams.id r) (next_id rows)) rows = [].
Proof.
  assert (G : forall l, (forall r, In r l -> RevenueStreams.id r < next_id rows) ->
            List.filter (fun r => Z.eqb (RevenueStreams.id r) (next_id rows)) l = []).
  { induction l as [|x l IH]; intros Hall; simpl; [reflexivity|].
    assert (Hx := Hall x (or_introl eq_refl)).
    apply Z.lt_neq in Hx. apply Z.eqb_neq in Hx. rewrite Hx. apply IH.
    intros r Hr. apply Hall. now right. }
  apply G. apply ids_below_next_id.
Qed.

(** X13.  Create, then read back: the id a successful creation returns
    leads the single-stream endpoint to exactly the stored stream (name
    and notes escaped, the three figures as sent), in every later state
    that still holds the table the creation left, provided the reading
    request passes the gate. *)
Theorem created_stream_can_be_read_back
    (env env2 : Env) (stream : RevenueStream) (x_api_key x_api_key2 : option string)
    (w w1 w2 : World) (resp : CreateResponse) (info2 : KeyInfo) :
  create_revenue_stream env stream x_api_key w = (Ok resp, w1) ->
  revenue_streams w2 = revenue_streams w1 ->
  fst (get_auth env2 x_api_key2 w2) = Ok info2 ->
  fst (get_revenue_stream env2 (stream_id resp) x_api_key2 w2)
  = Ok (created_row env stream w).
Proof.
  intros Hcreate Hsame Hauth.
  apply create_revenue_stream_ok in Hcreate as [Hid Hrows].
  rewrite (get_revenue_stream_run env2 _ x_api_key2 w2 info2 Hauth). simpl fst.
  rewrite Hsame, Hrows, Hid, List.filter_app, no_stream_with_next_id. simpl.
  rewrite Z.eqb_refl. reflexivity.
Qed.

Lemma created_stream_read_back_witness :
  fst (get_revenue_stream hour_later_env 1 (Some "demo-free-key") one_stream_world)
  = Ok (created_row utc_env brain_api_stream demo_world).
Proof.
  exact (created_stream_can_be_read_back
           utc_env hour_later_env brain_api_stream (Some "demo-free-key")
           (Some "demo-free-key") demo_world one_stream_world one_stream_world
           {| stream_id := 1; create_message := "Revenue stream created successfully" |}
           {| info_tier := "free"; info_name := Some "demo@example.com";
              info_daily_limit := 2 |}
           eq_refl eq_refl eq_refl).
Defined.




Lemma update_without_fields_run (env : Env) (stream_id : Z)
    (update : RevenueStreamUpdate) (x_api_key : option string) (w : World)
    (info : KeyInfo) :
  fst (get_auth env x_api_key w) = Ok info ->
  supplied_updates update = [] ->
  update_revenue_stream env stream_id update x_api_key w
  = (Raise (HTTPException 400 "No fields to update"),
     traced (gate_events ++ [EvConnect; EvClose]) w).
Proof.
  intros Hauth Hnone. unfold update_revenue_stream. unfold bind at 1.
  rewrite (get_auth_ok_run env x_api_key w info Hauth). rewrite Hnone.
  unfold try_finally, get_db, conn_close, log_event, raise, bind; simpl.
  same_trace.
Qed.

(** X15.  Requests the ledger turns down on validation store nothing: a
    creation with a category outside api, product, service, consulting,
    and an update body with no field, are both answered with 400, after
    which every table and the in-memory state are as before (the update is
    refused even when the stream exists). *)
Theorem revenue_validation_failures_store_nothing
    (env : Env) (stream : RevenueStream) (stream_id : Z) (update : RevenueStreamUpdate)
    (x_api_key : option string) (w : World) (info : KeyInfo) :
  fst (get_auth env x_api_key w) = Ok info ->
  (str_in (rs_category stream) VALID_CATEGORIES = false ->
   http_status (fst (create_revenue_stream env stream x_api_key w)) = 400 /\
   same_state w (snd (create_revenue_stream env stream x_api_key w))) /\
  (supplied_updates update = [] ->
   fst (update_revenue_stream env stream_id update x_api_key w)
     = Raise (HTTPException 400 "No fields to update") /\
   same_state w (snd (update_revenue_stream env stream_id update x_api_key w))).
Proof.
  intros Hauth. split.
  - intros Hcat. rewrite (create_revenue_stream_run env stream x_api_key w info Hauth).
    rewrite Hcat. simpl. split; [reflexivity | apply traced_same_state].
  - intros Hnone.
    rewrite (update_without_fields_run env stream_id update x_api_key w info Hauth Hnone).
    split; [reflexivity | apply traced_same_state].
Qed.

Lemma revenue_validation_witness :
  http_status (fst (create_revenue_stream utc_env
                      {| rs_name := "Side project"; rs_category := "hobby";
                         rs_monthly_revenue := 0; rs_potential_monthly := 10;
                         rs_growth_rate := 0; rs_notes := None |}
                      (Some "demo-free-key") demo_world)) = 400.
Proof.
  exact (proj1 (proj1 (revenue_validation_failures_store_nothing
                         utc_env
                         {| rs_name := "Side project"; rs_category := "hobby";
                            rs_monthly_revenue := 0; rs_potential_monthly := 10;
                            rs_growth_rate := 0; rs_notes := None |}
                         1 (growth_rate_only 12) (Some "demo-free-key") demo_world
                         {| info_tier := "free"; info_name := Some "demo@example.com";
                            info_daily_limit := 2 |}
                         eq_refl) eq_refl)).
Defined.

(** X16.  Update, then read back: after a successful partial update the
    single-stream endpoint returns the patched row of the stream, so the
    omitted fields read back as they were stored and the supplied ones as
    sent. *)
Theorem updated_stream_reads_back_patched
    (env env2 : Env) (stream_id : Z) (update : RevenueStreamUpdate)
    (x_api_key x_api_key2 : option string) (w : World) (info info2 : KeyInfo)
    (r : RevenueStreams.row) :
  fst (get_auth env x_api_key w) = Ok info ->
  supplied_updates update <> [] ->
  fetchone (List.filter (fun r0 => Z.eqb (RevenueStreams.id r0) stream_id)
              (revenue_streams w)) = Some r ->
  fst (get_auth env2 x_api_key2
         (snd (update_revenue_stream env stream_id update x_api_key w))) = Ok info2 ->
  fst (update_revenue_stream env stream_id update x_api_key w)
    = Ok "Revenue stream updated successfully" /\
  fst (get_revenue_stream env2 stream_id x_api_key2
         (snd (update_revenue_stream env stream_id update x_api_key w)))
    = Ok (patched env update r).
Proof.
  intros Hauth Hsup Hrow Hauth2.
  rewrite (get_revenue_stream_run env2 stream_id x_api_key2 _ info2 Hauth2).
  rewrite (update_revenue_stream_run env stream_id update x_api_key w info Hauth Hsup).
  cbv zeta.
  assert (Hcount : Nat.eqb (length (List.filter
                                      (fun r0 => Z.eqb (RevenueStreams.id r0) stream_id)
                                      (revenue_streams w))) 0 = false).
  { unfold fetchone in Hrow.
    destruct (List.filter _ (revenue_streams w)); [discriminate | reflexivity]. }
  rewrite Hcount. simpl. split; [reflexivity|].
  rewrite (fetchone_filter_map
             (fun r0 => Z.eqb (RevenueStreams.id r0) stream_id)
             (fun r0 => if Z.eqb (RevenueStreams.id r0) stream_id
                        then patched env update r0 else r0)).
  - rewrite Hrow. simpl.
    assert (Hr : Z.eqb (RevenueStreams.id r) stream_id = true).
    { unfold fetchone in Hrow.
      destruct (List.filter _ (revenue_streams w)) as [|r0 l] eqn:E; [discriminate|].
      injection Hrow as ->.
      assert (Hin : In r (List.filter
                            (fun r0 => Z.eqb (RevenueStreams.id r0) stream_id)
                            (revenue_streams w))) by (rewrite E; now left).
      now apply filter_In in Hin as [_ Hin]. }
    now rewrite Hr.
  - intros r0. destruct (Z.eqb (RevenueStreams.id r0) stream_id) eqn:E; simpl; exact E.
Qed.

Lemma updated_stream_reads_back_witness :
  fst (get_revenue_stream hour_later_env 1 (Some "demo-free-key")
         (snd (update_revenue_stream utc_env 1 (growth_rate_only 12)
                 (Some "demo-free-key") one_stream_world)))
  = Ok (patched utc_env (growth_rate_only 12)
          (created_row utc_env brain_api_stream demo_world)).
Proof.
  exact (proj2 (updated_stream_reads_back_patched
                  utc_env hour_later_env 1 (growth_rate_only 12) (Some "demo-free-key")
                  (Some "demo-free-key") one_stream_world
                  {| info_tier := "free"; info_name := Some "demo@example.com";
                     info_daily_limit := 2 |}
                  {| info_tier := "free"; info_name := Some "demo@example.com";
                     info_daily_limit := 2 |}
                  (created_row utc_env brain_api_stream demo_world)
                  eq_refl (growth_only_is_supplied 12) eq_refl eq_refl)).
Defined.

(** The revenue table after a creation request, whatever its outcome. *)
Lemma create_revenue_stream_table (env : Env) (stream : RevenueStream)
    (x_api_key : option string) (w : World) :
  revenue_streams (snd (create_revenue_stream env stream x_api_key w))
    = revenue_streams w \/
  revenue_streams (snd (create_revenue_stream env stream x_api_key w))
    = revenue_streams w ++ [created_row env stream w].
Proof.
  destruct (get_auth env x_api_key w) as [[info|e] w1] eqn:E.
  - assert (Hauth : fst (get_auth env x_api_key w) = Ok info) by now rewrite E.
    rewrite (create_revenue_stream_run env stream x_api_key w info Hauth).
    destruct (negb _); [left | right]; reflexivity.
  - left. pose proof (get_auth_same_state env x_api_key w) as Hs.
    unfold create_revenue_stream. unfold bind at 1. rewrite E in *. simpl.
    exact (proj1 (proj2 (proj2 Hs))).
Qed.

(** The revenue table after an update request, whatever its outcome. *)
Lemma update_revenue_stream_table (env : Env) (stream_id : Z)
    (update : RevenueStreamUpdate) (x_api_key : option string) (w : World) :
  revenue_streams (snd (update_revenue_stream env stream_id update x_api_key w))
    = revenue_streams w \/
  revenue_streams (snd (update_revenue_stream env stream_id update x_api_key w))
    = map (fun r => if Z.eqb (RevenueStreams.id r) stream_id
                    then patched env update r else r) (revenue_streams w).
Proof.
  destruct (get_auth env x_api_key w) as [[info|e] w1] eqn:E.
  - assert (Hauth : fst (get_auth env x_api_key w) = Ok info) by now rewrite E.
    destruct (supplied_updates update) as [|a l] eqn:Hsup.
    + left.
      now rewrite (update_without_fields_run env stream_id update x_api_key w info
                     Hauth Hsup).
    + right.
      rewrite (update_revenue_stream_run env stream_id update x_api_key w info Hauth)
        by (rewrite Hsup; discriminate).
      cbv zeta. destruct (Nat.eqb _ 0); reflexivity.
  - left. pose proof (get_auth_same_state env x_api_key w) as Hs.
    unfold update_revenue_stream. unfold bind at 1. rewrite E in *. simpl.
    exact (proj1 (proj2 (proj2 Hs))).
Qed.

Lemma NoDup_snoc {A : Type} (l : list A) (x : A) :
  NoDup l -> ~ In x l -> NoDup (l ++ [x]).
Proof.
  induction 1 as [|y l Hy Hl IH]; simpl; intros Hx.
  - constructor; [intros H; inversion H | constructor].
  - constructor.
    + rewrite list_elem_of_In, in_app_iff. intros [H|[H|[]]].
      * apply Hy. now apply list_elem_of_In.
      * apply Hx. now left.
    + apply IH. intros H. apply Hx. now right.
Qed.

(** X17.  Stream identifiers stay pairwise distinct: if they are distinct
    before a creation or an update request, they are distinct after it,
    whatever the request contains and however it ends. *)
Theorem stream_ids_stay_unique
    (env : Env) (stream : RevenueStream) (stream_id : Z) (update : RevenueStreamUpdate)
    (x_api_key : option string) (w : World) :
  unique_ids (revenue_streams w) ->
  unique_ids (revenue_streams (snd (create_revenue_stream env stream x_api_key w))) /\
  unique_ids (revenue_streams
                (snd (update_revenue_stream env stream_id update x_api_key w))).
Proof.
  unfold unique_ids. intros Hu. split.
  - destruct (create_revenue_stream_table env stream x_api_key w) as [->| ->];
      [exact Hu|].
    rewrite map_app. simpl. apply NoDup_snoc; [exact Hu|].
    intros Hin. apply in_map_iff in Hin as (r & Hid & Hr).
    apply ids_below_next_id in Hr. lia.
  - destruct (update_revenue_stream_table env stream_id update x_api_key w) as [->| ->];
      [exact Hu|].
    rewrite map_map.
    replace (map _ (revenue_streams w)) with (map RevenueStreams.id (revenue_streams w));
      [exact Hu|].
    apply map_ext. intros r. now destruct (Z.eqb _ _).
Qed.

Lemma stream_ids_unique_witness :
  unique_ids (revenue_streams
                (snd (create_revenue_stream hour_later_env brain_api_stream
                        (Some "demo-free-key") one_stream_world))).
Proof.
  assert (Hu : unique_ids (revenue_streams one_stream_world)).
  { unfold unique_ids.
    change (NoDup [RevenueStreams.id (created_row utc_env brain_api_stream demo_world)]).
    apply NoDup_snoc with (l := []); [constructor | intros []]. }
  exact (proj1 (stream_ids_stay_unique hour_later_env brain_api_stream 1
                  (growth_rate_only 12) (Some "demo-free-key") one_stream_world Hu)).
Defined.

Lemma get_revenue_summary_ok_inv (env : Env) (x_api_key : option string) (w : World)
    (s : RevenueSummary) :
  fst (get_revenue_summary env x_api_key w) = Ok s ->
  s = (let rows := revenue_streams w in
       let monthly := coalesce0 (sql_sum (map RevenueStreams.monthly_revenue rows)) in
       let potential := coalesce0 (sql_sum (map RevenueStreams.potential_monthly rows)) in
       {| total_streams := Z.of_nat (length rows);
          total_monthly_revenue := monthly;
          total_potential_revenue := potential;
          avg_growth_rate := coalesce0 (sql_avg (map RevenueStreams.growth_rate rows));
          revenue_gap := py_sub potential monthly |}).
Proof.
  destruct (get_auth env x_api_key w) as [[info|e] w1] eqn:E.
  - assert (Hauth : fst (get_auth env x_api_key w) = Ok info) by now rewrite E.
    rewrite (get_revenue_summary_run env x_api_key w info Hauth). cbv zeta.
    now intros [= <-].
  - unfold get_revenue_summary. unfold bind at 1. rewrite E. discriminate.
Qed.

(** X18.  An update that supplies neither [monthly_revenue] nor
    [potential_monthly] cannot move the money figures of the summary: the
    stream count, the monthly total, the potential total and the revenue
    gap read the same after the request as before, whether the update
    succeeded or not. *)
Theorem update_without_amounts_keeps_totals
    (env env1 env2 : Env) (stream_id : Z) (update : RevenueStreamUpdate)
    (x_api_key x_api_key1 x_api_key2 : option string) (w : World)
    (s s' : RevenueSummary) :
  up_monthly_revenue update = None ->
  up_potential_monthly update = None ->
  fst (get_revenue_summary env1 x_api_key1 w) = Ok s ->
  fst (get_revenue_summary env2 x_api_key2
         (snd (update_revenue_stream env stream_id update x_api_key w))) = Ok s' ->
  total_streams s' = total_streams s /\
  total_monthly_revenue s' = total_monthly_revenue s /\
  total_potential_revenue s' = total_potential_revenue s /\
  revenue_gap s' = revenue_gap s.
Proof.
  intros Hm Hp Hs Hs'.
  apply get_revenue_summary_ok_inv in Hs, Hs'. cbv zeta in Hs, Hs'. subst s s'. simpl.
  destruct (update_revenue_stream_table env stream_id update x_api_key w) as [->| ->];
    [repeat split|].
  rewrite length_map, !map_map.
  assert (Hmon : map (fun r => RevenueStreams.monthly_revenue
                                 (if Z.eqb (RevenueStreams.id r) stream_id
                                  then patched env update r else r)) (revenue_streams w)
                 = map RevenueStreams.monthly_revenue (revenue_streams w)).
  { apply map_ext. intros r. destruct (Z.eqb _ _); [|reflexivity]. simpl. now rewrite Hm. }
  assert (Hpot : map (fun r => RevenueStreams.potential_monthly
                                 (if Z.eqb (RevenueStreams.id r) stream_id
                                  then patched env update r else r)) (revenue_streams w)
                 = map RevenueStreams.potential_monthly (revenue_streams w)).
  { apply map_ext. intros r. destruct (Z.eqb _ _); [|reflexivity]. simpl. now rewrite Hp. }
  rewrite Hmon, Hpot. repeat split.
Qed.

Lemma update_keeps_totals_witness :
  exists s',
    fst (get_revenue_summary hour_later_env (Some "demo-free-key")
           (snd (update_revenue_stream utc_env 1 (growth_rate_only 12)
                   (Some "demo-free-key") one_stream_world))) = Ok s' /\
    revenue_gap s' = PFloat 4500.
Proof.
  assert (Hs : fst (get_revenue_summary utc_env (Some "demo-free-key") one_stream_world)
               = Ok {| total_streams := 1; total_monthly_revenue := PFloat 500;
                       total_potential_revenue := PFloat 5000;
                       avg_growth_rate := PFloat 10.5; revenue_gap := PFloat 4500 |})
    by (vm_compute; reflexivity).
  assert (Hs' : fst (get_revenue_summary hour_later_env (Some "demo-free-key")
                       (snd (update_revenue_stream utc_env 1 (growth_rate_only 12)
                               (Some "demo-free-key") one_stream_world)))
                = Ok {| total_streams := 1; total_monthly_revenue := PFloat 500;
                        total_potential_revenue := PFloat 5000;
                        avg_growth_rate := PFloat 12; revenue_gap := PFloat 4500 |})
    by (vm_compute; reflexivity).
  eexists. split; [exact Hs'|].
  exact (proj2 (proj2 (proj2
           (update_without_amounts_keeps_totals
              utc_env utc_env hour_later_env 1 (growth_rate_only 12)
              (Some "demo-free-key") (Some "demo-free-key") (Some "demo-free-key")
              one_stream_world _ _ eq_refl eq_refl Hs Hs')))).
Defined.

Lemma insert_newest_perm (r : RevenueStreams.row) (l : list RevenueStreams.row) :
  Permutation (insert_newest r l) (r :: l).
Proof.
  induction l as [|x l IH]; simpl; [reflexivity|].
  destruct (_ <? _); [|reflexivity].
  rewrite IH. apply perm_swap.
Qed.

Lemma insert_newest_sorted (r : RevenueStreams.row) (l : list RevenueStreams.row) :
  newest_first l -> newest_first (insert_newest r l).
Proof.
  induction l as [|x l IH]; simpl.
  - intros _. split; [intros y [] | exact I].
  - intros [Hx Hl]. destruct (Z.ltb_spec (RevenueStreams.created_at r)
                                         (RevenueStreams.created_at x)) as [Hlt|Hge].
    + simpl. split; [|now apply IH].
      intros y Hy. apply (Permutation_in _ (insert_newest_perm r l)) in Hy.
      destruct Hy as [<-|Hy]; [lia | now apply Hx].
    + simpl. split; [|split; assumption].
      intros y [<-|Hy]; [lia|]. specialize (Hx y Hy). lia.
Qed.

(** X19.  The stream listing, for a request that passes the gate, returns
    every stored stream exactly once (it is a permutation of the table)
    and in order of creation time, newest first. *)
Theorem revenue_streams_listed_newest_first
    (env : Env) (x_api_key : option string) (w : World) (info : KeyInfo) :
  fst (get_auth env x_api_key w) = Ok info ->
  exists l,
    fst (get_revenue_streams env x_api_key w) = Ok l /\
    Permutation l (revenue_streams w) /\
    newest_first l.
Proof.
  intros Hauth. unfold get_revenue_streams. unfold bind at 1.
  rewrite (get_auth_ok_run env x_api_key w info Hauth).
  unfold try_finally, select, get_db, conn_close, log_event, ret, bind; simpl.
  rewrite filter_all. eexists. split; [reflexivity|].
  unfold order_by_created_at_desc.
  induction (revenue_streams w) as [|x l [IHp IHs]]; simpl.
  - split; [constructor | exact I].
  - split.
    + rewrite insert_newest_perm. now constructor.
    + now apply insert_newest_sorted.
Qed.

Lemma revenue_streams_listing_witness :
  exists l,
    fst (get_revenue_streams hour_later_env (Some "demo-free-key")
           (snd (create_revenue_stream hour_later_env brain_api_stream
                   (Some "demo-free-key") one_stream_world))) = Ok l /\
    map RevenueStreams.id l = [2; 1].
Proof.
  destruct (revenue_streams_listed_newest_first
              hour_later_env (Some "demo-free-key")
              (snd (create_revenue_stream hour_later_env brain_api_stream
                      (Some "demo-free-key") one_stream_world))
              {| info_tier := "free"; info_name := Some "demo@example.com";
                 info_daily_limit := 2 |} eq_refl)
    as (l & Hl & _).
  exists l. split; [exact Hl|].
  vm_compute in Hl. injection Hl as <-. reflexivity.
Defined.

(* ===================================================================== *)
(** ** Escaping and validation of text *)
(* ===================================================================== *)






Lemma fullmatch_void (s : string) : fullmatch Void s = false.
Proof. induction s as [|c s IH]; simpl; [reflexivity | exact IH]. Qed.

Lemma alphabet_seq' (r s : regex) (c : ascii) :
  alphabet (seq' r s) c = true -> alphabet r c || alphabet s c = true.
Proof. unfold seq'. destruct (is_void r || is_void s); [discriminate | tauto]. Qed.

Lemma alphabet_alt' (r s : regex) (c : ascii) :
  alphabet (alt' r s) c = true -> alphabet r c || alphabet s c = true.
Proof.
  unfold alt'. destruct (is_void r); [intros ->; apply orb_true_r|].
  destruct (is_void s); [intros ->; reflexivity | tauto].
Qed.

(** A derivative accepts no character the expression did not accept. *)
Lemma alphabet_deriv (a : ascii) (r : regex) (c : ascii) :
  alphabet (deriv a r) c = true -> alphabet r c = true.
Proof.
  induction r as [| |p|r IHr s IHs|r IHr s IHs|r IHr]; simpl; try discriminate.
  - destruct (p a); discriminate.
  - intros H. apply alphabet_alt' in H. apply orb_true_iff in H as [H|H].
    + apply alphabet_seq' in H. apply orb_true_iff in H as [H|H];
        apply orb_true_iff; [left; now apply IHr | now right].
    + destruct (nullable r); [|discriminate]. apply orb_true_iff. right. now apply IHs.
  - intros H. apply alphabet_alt' in H. apply orb_true_iff in H as [H|H];
      apply orb_true_iff; [left; now apply IHr | right; now apply IHs].
  - intros H. apply alphabet_seq' in H. apply orb_true_iff in H as [H|H];
      [now apply IHr | exact H].
Qed.

(** A character outside the alphabet kills the expression. *)
Lemma deriv_outside_alphabet (a : ascii) (r : regex) :
  alphabet r a = false -> deriv a r = Void.
Proof.
  induction r as [| |p|r IHr s IHs|r IHr s IHs|r IHr]; simpl; try reflexivity.
  - now intros ->.
  - intros H. apply orb_false_elim in H as [Hr Hs]. rewrite (IHr Hr), (IHs Hs).
    now destruct (nullable r).
  - intros H. apply orb_false_elim in H as [Hr Hs]. now rewrite (IHr Hr), (IHs Hs).
  - intros H. now rewrite (IHr H).
Qed.

Lemma fullmatch_alphabet (s : string) (r : regex) (c : ascii) :
  fullmatch r s = true -> In c (list_ascii_of_string s) -> alphabet r c = true.
Proof.
  revert r. induction s as [|a s IH]; simpl; intros r Hm Hin; [destruct Hin|].
  destruct (alphabet r a) eqn:Ea.
  - destruct Hin as [<-|Hin]; [exact Ea|].
    apply alphabet_deriv with (a := a). now apply IH.
  - rewrite (deriv_outside_alphabet a r Ea), fullmatch_void in Hm. discriminate.
Qed.

Lemma domain_char_local (c : ascii) : domain_char c = true -> local_char c = true.
Proof.
  unfold domain_char, local_char.
  destruct (is_alnum c); cbn [orb]; [reflexivity|].
  destruct (Ascii.eqb c "."); cbn [orb]; [reflexivity|].
  intros ->. now rewrite !orb_true_r.
Qed.

Lemma is_alpha_local (c : ascii) : is_alpha c = true -> local_char c = true.
Proof. unfold local_char, is_alnum. now intros ->. Qed.

(** X21.  An address accepted by [EMAIL_RE] is made only of letters,
    digits and the characters . _ % + - @ (and possibly one newline, which
    the closing [$] lets through): it contains no blank and none of the
    characters <, >, &, double quote and single quote. *)
Theorem accepted_email_has_only_address_characters (email : string) (c : ascii) :
  EMAIL_RE_match email = true ->
  In c (list_ascii_of_string email) ->
  email_char c = true /\
  c <> " "%char /\ c <> "&"%char /\ is_markup c = false.
Proof.
  intros Hm Hin.
  assert (Hc : email_char c = true).
  { pose proof (fullmatch_alphabet email EMAIL_RE c Hm Hin) as H.
    unfold EMAIL_RE, plus in H. cbn [alphabet] in H. unfold email_char.
    repeat match type of H with
           | (_ || _ = true) => apply orb_true_iff in H; destruct H as [H|H]
           end;
      first [ discriminate H
            | now rewrite H
            | rewrite H; now rewrite ?orb_true_r
            | now rewrite (domain_char_local c H)
            | now rewrite (is_alpha_local c H)
            | apply Ascii.eqb_eq in H; subst c; reflexivity ]. }
  split; [exact Hc|].
  repeat split; try (intros ->; vm_compute in Hc; discriminate).
  destruct (is_markup c) eqn:Em; [|reflexivity].
  unfold is_markup in Em.
  repeat (apply orb_true_iff in Em; destruct Em as [Em|Em]);
    apply Ascii.eqb_eq in Em; subst c; vm_compute in Hc; discriminate.
Qed.

Lemma accepted_email_witness :
  email_char "+"%char = true /\ "+"%char <> " "%char.
Proof.
  pose proof (accepted_email_has_only_address_characters
                "first.last+tag@example.org" "+"%char eq_refl) as H.
  assert (Hin : In "+"%char (list_ascii_of_string "first.last+tag@example.org")).
  { simpl. do 10 right. now left. }
  destruct (H Hin) as (H1 & H2 & _). split; assumption.
Defined.

(* ===================================================================== *)
(** ** Prediction markets: further properties *)
(* ===================================================================== *)






Lemma get_market_run {J : Type} (json_loads : string -> option J) (market_id : string)
    (w : World) :
  get_market json_loads market_id w =
  (Ok match fetchone (List.filter
                        (fun r => String.eqb (PolymarketMarkets.id r) market_id)
                        (polymarket_markets w)) with
      | None => MarketError "Market not found"
      | Some row => MarketFound (to_market json_loads row)
      end,
   traced [EvConnect; EvExecute SELECT "polymarket_markets"; EvClose] w).
Proof.
  unfold get_market, try_finally, select, conn_close, log_event, ret, bind; simpl.
  destruct (fetchone _); simpl; same_trace.
Qed.

(** X23.  The single-market endpoint never fails: an id that no stored
    market carries is answered with the body "Market not found" (status
    200, not a 404), an id that some market carries is answered with a
    stored market of that id, open or closed; the store is only read. *)
Theorem get_market_answers_without_failing
    (J : Type) (json_loads : string -> option J) (market_id : string) (w : World) :
  exists answer,
    fst (get_market json_loads market_id w) = Ok answer /\
    same_state w (snd (get_market json_loads market_id w)) /\
    ((forall r, In r (polymarket_markets w) -> PolymarketMarkets.id r <> market_id) ->
     answer = MarketError "Market not found") /\
    (forall r, In r (polymarket_markets w) -> PolymarketMarkets.id r = market_id ->
       exists row, In row (polymarket_markets w) /\
                   PolymarketMarkets.id row = market_id /\
                   answer = MarketFound (to_market json_loads row)).
Proof.
  rewrite get_market_run. eexists. split; [reflexivity|].
  split; [apply traced_same_state|]. split.
  - intros Hnone.
    assert (E : fetchone (List.filter
                            (fun r => String.eqb (PolymarketMarkets.id r) market_id)
                            (polymarket_markets w)) = None).
    { apply fetchone_filter_none. intros r Hr. apply String.eqb_neq. now apply Hnone. }
    now rewrite E.
  - intros r Hr Hid.
    destruct (fetchone_filter_some
                (fun r0 => String.eqb (PolymarketMarkets.id r0) market_id)
                (polymarket_markets w) r Hr) as [row Hrow];
      [now apply String.eqb_eq|].
    rewrite Hrow. exists row.
    unfold fetchone in Hrow.
    destruct (List.filter _ (polymarket_markets w)) as [|r0 l] eqn:E; [discriminate|].
    injection Hrow as ->.
    assert (Hin : In row (List.filter
                            (fun r0 => String.eqb (PolymarketMarkets.id r0) market_id)
                            (polymarket_markets w))) by (rewrite E; now left).
    apply filter_In in Hin as [Hin Hrid]. apply String.eqb_eq in Hrid.
    repeat split; assumption.
Qed.

Lemma fetchone_unique_id (l : list PolymarketMarkets.row) (row : PolymarketMarkets.row) :
  NoDup (map PolymarketMarkets.id l) ->
  In row l ->
  fetchone (List.filter
              (fun r => String.eqb (PolymarketMarkets.id r) (PolymarketMarkets.id row)) l)
  = Some row.
Proof.
  induction l as [|x l IH]; simpl; intros Hnd Hin; [destruct Hin|].
  apply NoDup_cons in Hnd as [Hx Hl].
  destruct Hin as [->|Hin].
  - now rewrite String.eqb_refl.
  - destruct (String.eqb_spec (PolymarketMarkets.id x) (PolymarketMarkets.id row)) as [E|_].
    + exfalso. apply Hx. rewrite E. apply list_elem_of_In. now apply in_map.
    + now apply IH.
Qed.

(** X24.  Listing and lookup agree: when the stored market ids are
    pairwise distinct (the column is the primary key), every market that
    the stand-alone listing returns, for whatever limit and filters, is
    exactly what the single-market endpoint returns for its id. *)
Theorem listed_market_can_be_fetched
    (J : Type) (json_loads : string -> option J) (env : Env) (limit : Z)
    (category : option string) (active_only : bool) (w : World)
    (resp : polymarket.MarketsResponse) (m : Market J) :
  NoDup (map PolymarketMarkets.id (polymarket_markets w)) ->
  fst (polymarket.get_markets json_loads env limit category active_only w) = Ok resp ->
  In m (polymarket.markets resp) ->
  fst (get_market json_loads (m_id m) w) = Ok (MarketFound m).
Proof.
  intros Hnd Hresp Hm.
  assert (Hrow : exists row, In row (polymarket_markets w) /\ m = to_market json_loads row).
  { unfold polymarket.get_markets in Hresp.
    unfold try_finally, conn_close, log_event, ret in Hresp. unfold bind at 1 2 in Hresp.
    destruct (select_markets_run limit category active_only
                (with_db_trace (fun t => t ++ [EvConnect]) w)) as (rows & E & Hall).
    rewrite E in Hresp. simpl in Hresp. injection Hresp as <-. simpl in Hm.
    apply in_map_iff in Hm as (row & <- & Hin). exists row.
    split; [exact (proj1 (Hall row Hin)) | reflexivity]. }
  destruct Hrow as (row & Hin & ->).
  rewrite get_market_run. simpl.
  now rewrite (fetchone_unique_id (polymarket_markets w) row Hnd Hin).
Qed.

Lemma listed_market_witness :
  fst (get_market keep_text "0xaaa" markets_world)
  = Ok (MarketFound (to_market keep_text open_market)).
Proof.
  assert (Hnd : NoDup (map PolymarketMarkets.id (polymarket_markets markets_world))).
  { change (NoDup ["0xbbb"; "0xaaa"]). apply NoDup_ListNoDup.
    repeat constructor; simpl; intuition discriminate. }
  exact (listed_market_can_be_fetched
           string keep_text utc_env 50 None true markets_world
           {| polymarket.markets := [to_market keep_text open_market];
              polymarket.count := 1;
              polymarket.timestamp := now utc_env;
              polymarket.data_updated := Some (19875 * 86400) |}
           (to_market keep_text open_market) Hnd eq_refl (or_introl eq_refl)).
Defined.

(* ===================================================================== *)
(** ** The gate and the usage log: further properties *)
(* ===================================================================== *)

Lemma find_key_info_same_keys (key : string) (w w' : World) :
  api_keys w' = api_keys w -> find_key_info key w' = find_key_info key w.
Proof. intros H. unfold find_key_info. now rewrite H. Qed.

Lemma usage_on_day_grows (key : string) (day : Z) (w w' : World) (extra : list UsageLog.row) :
  api_usage_log w' = api_usage_log w ++ extra ->
  usage_on_day key day w <= usage_on_day key day w'.
Proof.
  intros H. unfold usage_on_day. rewrite H, List.filter_app, length_app. lia.
Qed.

Lemma serve_all_grows (envs : list Env) (key path : string) (day : Z) (w : World) :
  str_truthy key = true ->
  api_keys (serve_all envs key path w) = api_keys w /\
  usage_on_day key day w <= usage_on_day key day (serve_all envs key path w).
Proof.
  intros Hk. revert w. induction envs as [|env envs IH]; intros w; simpl.
  - split; [reflexivity | lia].
  - destruct (gated_request_logs env key path w Hk) as (status & Hlog & Hkeys).
    destruct (IH (snd (gated_request env key path w))) as [IHk IHu].
    split; [now rewrite IHk|].
    pose proof (usage_on_day_grows key day w _ _ Hlog). lia.
Qed.

(** X25.  The gate only reads: whatever it answers, every table and the
    in-memory state are as before, and the database saw nothing but
    connections being opened and closed and SELECT statements. *)
Theorem get_auth_only_reads (env : Env) (x_api_key : option string) (w : World) :
  same_state w (snd (get_auth env x_api_key w)) /\
  exists evs,
    db_trace (snd (get_auth env x_api_key w)) = db_trace w ++ evs /\
    List.Forall (fun e => e = EvConnect \/ e = EvClose \/
                          exists table, e = EvExecute SELECT table) evs.
Proof.
  rewrite get_auth_run. destruct (negb _).
  - split; [apply same_state_refl|]. exists []. simpl. rewrite app_nil_r.
    split; [reflexivity | constructor].
  - cbv zeta. destruct (find_key_info _ w); [destruct (_ <? _)|];
      (split; [apply traced_same_state|]); eexists; (split; [reflexivity|]);
      repeat (apply List.Forall_cons; [|]); try apply List.Forall_nil;
      first [ left; reflexivity
            | right; left; reflexivity
            | right; right; eexists; reflexivity ].
Qed.

(** X26.  Every request that carries a non-empty token is counted, the
    refused ones included: behind the middleware the gate's answer is
    unchanged, the key table is untouched, and exactly one usage row is
    appended, for the presented token, with the status of the answer
    (200, 403 or 429).  A request with an empty token is answered 401 and
    leaves no row. *)
Theorem gated_request_counts_refused_requests (env : Env) (key path : string) (w : World) :
  fst (gated_request env key path w) = fst (get_auth env (Some key) w) /\
  api_keys (snd (gated_request env key path w)) = api_keys w /\
  api_usage_log (snd (gated_request env key path w))
  = api_usage_log w ++
    (if str_truthy key
     then [{| UsageLog.api_key := key; UsageLog.endpoint := path;
              UsageLog.response_time_ms := duration_ms env;
              UsageLog.status_code := http_status (fst (get_auth env (Some key) w));
              UsageLog.created_at := now env |}]
     else []) /\
  (str_truthy key = true ->
   In (http_status (fst (get_auth env (Some key) w))) [200; 403; 429]) /\
  (str_truthy key = false ->
   fst (gated_request env key path w)
   = Raise (HTTPException 401 "Missing X-API-Key header")).
Proof.
  unfold gated_request, log_api_usage. rewrite get_auth_run.
  simpl truthy. destruct (str_truthy key) eqn:Hk; cbn [negb]; cbv iota zeta.
  - simpl default. destruct (find_key_info key w) as [info|].
    + destruct (_ <? _); simpl; repeat split; try discriminate; intros _; simpl; auto.
    + simpl; repeat split; try discriminate; intros _; simpl; auto.
  - simpl. rewrite app_nil_r. repeat split; discriminate.
Qed.

(** X27.  The daily limit is sticky: once the gate has answered 429 for
    a key, it answers 429 again for that key at any later moment whose
    local date is the same, whatever requests were served with the key in
    between (they only add usage rows). *)
Theorem rate_limit_is_sticky
    (env env' : Env) (envs : list Env) (key path : string) (w : World) :
  fst (get_auth env (Some key) w) = Raise (HTTPException 429 "Rate limit exceeded") ->
  strftime_today env' = strftime_today env ->
  fst (get_auth env' (Some key) (serve_all envs key path w))
  = Raise (HTTPException 429 "Rate limit exceeded").
Proof.
  intros H429 Hday. rewrite get_auth_run in H429. simpl truthy in H429.
  destruct (str_truthy key) eqn:Hk; [|discriminate]. cbn [negb] in H429.
  cbv iota zeta in H429. simpl default in H429.
  destruct (find_key_info key w) as [info|] eqn:Hf; [|discriminate].
  destruct (Z.ltb_spec (usage_on_day key (strftime_today env) w) (info_daily_limit info))
    as [|Hfull]; [discriminate|].
  destruct (serve_all_grows envs key path (strftime_today env) w Hk) as [Hkeys Hgrow].
  rewrite (get_auth_active_key env' key _ info Hk);
    [|now rewrite (find_key_info_same_keys key w _ Hkeys)].
  rewrite Hday.
  destruct (Z.ltb_spec (usage_on_day key (strftime_today env) (serve_all envs key path w))
              (info_daily_limit info)); [lia | reflexivity].
Qed.

Lemma rate_limit_sticky_witness :
  fst (get_auth utc_env (Some "demo-free-key")
         (serve_all [utc_env; bst_env] "demo-free-key" "/brain/status" used_up_world))
  = Raise (HTTPException 429 "Rate limit exceeded").
Proof.
  exact (rate_limit_is_sticky utc_env utc_env [utc_env; bst_env]
           "demo-free-key" "/brain/status" used_up_world eq_refl eq_refl).
Defined.

(* ===================================================================== *)
(** ** Masking of keys in the log *)
(* ===================================================================== *)

Lemma string_length_app (a b : string) :
  String.length (String.append a b) = (String.length a + String.length b)%nat.
Proof. induction a as [|c a IH]; simpl; [reflexivity | now rewrite IH]. Qed.

Lemma string_app_assoc (a b c : string) :
  String.append (String.append a b) c = String.append a (String.append b c).
Proof.
  induction a as [|x a IH]; [reflexivity | exact (f_equal (String x) IH)].
Qed.

Lemma substring_prefix (p x : string) :
  substring 0 (String.length p) (String.append p x) = p.
Proof.
  induction p as [|c p IH].
  - now destruct x.
  - exact (f_equal (String c) IH).
Qed.

Lemma substring_whole (s : string) : substring 0 (String.length s) s = s.
Proof. induction s as [|c s IH]; simpl; [reflexivity | now rewrite IH]. Qed.

Lemma substring_suffix (a s : string) (n : nat) :
  substring (String.length a) n (String.append a s) = substring 0 n s.
Proof. induction a as [|c a IH]; [reflexivity | exact IH]. Qed.

(** X28.  What a masked key shows: of a key made of six characters, any
    middle part and four characters, only the six and the four, with
    three dots in between, so the mask does not depend on the middle
    part; a key of at most eight characters is masked entirely. *)
Theorem mask_key_shows_only_the_ends (p m s : string) :
  String.length p = 6%nat ->
  String.length s = 4%nat ->
  mask_key (String.append p (String.append m s))
  = String.append p (String.append "..." s) /\
  (forall key, (String.length key <= 8)%nat -> mask_key key = "***").
Proof.
  intros Hp Hs. split.
  - unfold mask_key.
    assert (Hlen : String.length (String.append p (String.append m s))
                   = (10 + String.length m)%nat)
      by (rewrite !string_length_app; lia).
    assert (Ht : str_truthy (String.append p (String.append m s)) = true)
      by (destruct p; [discriminate | reflexivity]).
    rewrite Ht, Hlen.
    assert (Hlt : (8 <? 10 + String.length m)%nat = true) by (apply Nat.ltb_lt; lia).
    rewrite Hlt. cbn [andb].
    assert (Ehead : substring 0 6 (String.append p (String.append m s)) = p)
      by (rewrite <- Hp; apply substring_prefix).
    assert (Etail : substring (10 + String.length m - 4) 4
                      (String.append p (String.append m s)) = s).
    { replace (10 + String.length m - 4)%nat
        with (String.length (String.append p m)) by (rewrite string_length_app; lia).
      rewrite <- string_app_assoc, substring_suffix, <- Hs. apply substring_whole. }
    now rewrite Ehead, Etail.
  - intros key Hkey. unfold mask_key.
    assert (Hlt : (8 <? String.length key)%nat = false) by (apply Nat.ltb_ge; lia).
    rewrite Hlt. now rewrite andb_false_r.
Qed.

Lemma mask_key_witness :
  mask_key "rev_free_0123456789abcdef" = "rev_fr...cdef".
Proof.
  exact (proj1 (mask_key_shows_only_the_ends "rev_fr" "ee_0123456789ab" "cdef"
                  eq_refl eq_refl)).
Defined.
